(** * ASTERRA GeoJSON ingestion: the worker (app.py) and the S3 dispatcher
      (s3_processor.py), embedded and checked against their specification.

    Layout: Python string primitives, the decoded-JSON data model, a state
    and exception monad, the worker ([GeoJSONProcessor]), the Lambda
    dispatcher ([handler], [run_ecs_task], [validate_geojson_key]), concrete
    scenarios, and finally the theorems. *)

From stdpp Require Import gmap strings list.
From Stdlib Require Import Ascii String DecimalString.

Local Open Scope string_scope.
Local Set Warnings "-register-all".

(** ** Python [str] primitives

    A Python [str] is a sequence of code points.  Object keys are modelled
    with [string], whose characters are the code points U+0000..U+00FF; on
    that range [str.lower] acts character by character. *)

Module PyStr.

(** [str.lower] on one code point below U+0100: A-Z and the Latin-1
    capitals U+00C0..U+00DE (the multiplication sign U+00D7 apart) move up
    by 32; everything else is unchanged. *)
Definition lower_char (c : ascii) : ascii :=
  let n := nat_of_ascii c in
  if ((65 <=? n) && (n <=? 90))%nat then ascii_of_nat (n + 32)
  else if ((192 <=? n) && (n <=? 222) && negb (n =? 215))%nat
       then ascii_of_nat (n + 32)
  else c.

Fixpoint map (f : ascii -> ascii) (s : string) : string :=
  match s with
  | EmptyString => EmptyString
  | String c s' => String (f c) (map f s')
  end.

(** [s.lower()] *)
Definition lower (s : string) : string := map lower_char s.

(** [s.replace(old, new)] for one-character [old] and [new], the only form
    the program uses: every occurrence is replaced. *)
Definition replace (old new : ascii) (s : string) : string :=
  map (fun c => if Ascii.eqb c old then new else c) s.

(** [s[:n]] *)
Fixpoint take (n : nat) (s : string) : string :=
  match n, s with
  | S n', String c s' => String c (take n' s')
  | _, _ => EmptyString
  end.

(** [s.endswith(suffix)] *)
Fixpoint endswith (s suffix : string) : bool :=
  String.eqb s suffix ||
  match s with
  | EmptyString => false
  | String _ s' => endswith s' suffix
  end.

(** [sub in s] *)
Fixpoint contains (sub s : string) : bool :=
  String.prefix sub s ||
  match s with
  | EmptyString => false
  | String _ s' => contains sub s'
  end.

(** [s.split(sep)] for a one-character separator. *)
Fixpoint split (sep : ascii) (s : string) : list string :=
  match s with
  | EmptyString => [EmptyString]
  | String c s' =>
      if Ascii.eqb c sep then EmptyString :: split sep s'
      else match split sep s' with
           | h :: t => String c h :: t
           | [] => [String c EmptyString]
           end
  end.

(** [str(n)] for a non-negative [int]: what an f-string prints for an
    index or a length. *)
Definition of_nat (n : nat) : string :=
  NilEmpty.string_of_uint (Nat.to_uint n).

End PyStr.

(** ** Values produced by [json.loads] *)

Inductive json : Type :=
| JNull
| JBool (b : bool)
| JInt (n : Z)
| JFloat (literal : string)
| JStr (s : string)
| JList (items : list json)
| JDict (entries : list (string * json)).

(** [d.get(k)]: [None] stands for Python's [None] default. *)
Fixpoint dict_get (k : string) (entries : list (string * json)) : option json :=
  match entries with
  | [] => None
  | (k', v) :: rest => if String.eqb k k' then Some v else dict_get k rest
  end.

(** [k in d] *)
Definition dict_has (k : string) (entries : list (string * json)) : bool :=
  match dict_get k entries with Some _ => true | None => false end.

(** [v != s] where [v] is the result of [d.get(...)] and [s] a [str]
    literal: only a [str] can be equal to a [str]. *)
Definition ne_str (v : option json) (s : string) : bool :=
  match v with
  | Some (JStr t) => negb (String.eqb t s)
  | _ => true
  end.

(** ** [GeoJSONProcessor.validate_geojson] *)

(** The body of [for i, feature in enumerate(features)], started at index
    [i]: [Some msg] is the early [return False, msg]. *)
Fixpoint validate_features (i : nat) (features : list json) : option string :=
  match features with
  | [] => None
  | feature :: rest =>
      match feature with
      | JDict fields =>
          if ne_str (dict_get "type" fields) "Feature" then
            Some ("Feature " ++ PyStr.of_nat i ++ " type is not 'Feature'")
          else if negb (dict_has "geometry" fields) then
            Some ("Feature " ++ PyStr.of_nat i ++ " missing geometry")
          else validate_features (S i) rest
      | _ => Some ("Feature " ++ PyStr.of_nat i ++ " is not an object")
      end
  end.

(** None of the operations in the [try] block can raise on a decoded JSON
    value ([isinstance], [dict.get], [in], [len], iteration over a list), so
    the [except] branch is never taken and is not part of the model. *)
Definition validate_geojson (geojson_data : json) : bool * string :=
  match geojson_data with
  | JDict top =>
      if ne_str (dict_get "type" top) "FeatureCollection" then
        (false, "Must be a FeatureCollection")
      else
        match dict_get "features" top with
        | None => (false, "No features found")
        | Some (JList features) =>
            match features with
            | [] => (false, "No features in collection")
            | _ =>
                match validate_features 0 features with
                | Some msg => (false, msg)
                | None => (true, "Valid GeoJSON")
                end
            end
        | Some _ => (false, "Features must be a list")
        end
  | _ => (false, "GeoJSON must be a JSON object")
  end.

(** ** Destination table name (app.py, lines 128-129) *)

Definition table_name (key : string) : string :=
  let table_name :=
    "geojson_" ++
    PyStr.replace "-" "_" (PyStr.replace "." "_" (PyStr.replace "/" "_" key)) in
  PyStr.take 63 (PyStr.lower table_name).


(** ** Exceptions and the state-and-exception monad

    Python code that calls external services is embedded as a function from
    the state of the world to an outcome (a raised exception or a value) and
    the new state. *)

Inductive exn_class := JSONDecodeError | KeyError | TypeError | OtherException.

(** [exn_text e] is [str(e)]. *)
Record exn := Exn { exn_kind : exn_class; exn_text : string }.

Definition M (St A : Type) : Type := St -> (exn + A) * St.

Definition ret {St A} (a : A) : M St A := fun w => (inr a, w).

Definition bind {St A B} (m : M St A) (k : A -> M St B) : M St B :=
  fun w => match m w with
           | (inl e, w') => (inl e, w')
           | (inr a, w') => k a w'
           end.

Definition raise {St A} (e : exn) : M St A := fun w => (inl e, w).

(** [try: body except Exception as e: handler(e)] *)
Definition try_except {St A} (body : M St A) (handler : exn -> M St A) : M St A :=
  fun w => match body w with
           | (inl e, w') => handler e w'
           | (inr a, w') => (inr a, w')
           end.

(** A pure library call that returns or raises. *)
Definition lift {St A} (r : exn + A) : M St A :=
  match r with inl e => raise e | inr a => ret a end.

Definition get {St} : M St St := fun w => (inr w, w).
Definition modify {St} (f : St -> St) : M St unit := fun w => (inr tt, f w).

Declare Scope py_scope.
Delimit Scope py_scope with py.
Notation "x <- m ;; k" := (bind m (fun x => k))
  (at level 100, m at next level, right associativity) : py_scope.
Notation "m ;;; k" := (bind m (fun _ => k))
  (at level 100, right associativity) : py_scope.

Inductive log_level := INFO | ERROR.

(** [d[k]] on a decoded JSON value with a [str] key.  A missing key raises
    [KeyError(k)], whose text is the [repr] of the key; the keys used by the
    program are quote-free literals.  Subscripting anything but a dict
    raises [TypeError] with a wording fixed by the interpreter
    ([type_error_text]). *)
Definition getitem (type_error_text : json -> string) (v : json) (k : string)
  : exn + json :=
  match v with
  | JDict entries =>
      match dict_get k entries with
      | Some x => inr x
      | None => inl (Exn KeyError ("'" ++ k ++ "'"))
      end
  | _ => inl (Exn TypeError (type_error_text v))
  end.

(** ** The worker: [GeoJSONProcessor] (app.py) *)

(** A cell of a GeoDataFrame: a value read from the file, a string or a
    timestamp assigned by the program. *)
Inductive cell :=
| CJson (v : json)
| CText (s : string)
| CTime (t : Z).

(** One row: column name to cell.  A GeoDataFrame is the list of its rows, so
    that [len(gdf)] is [length gdf]. *)
Abbreviation row := (gmap string cell).

(** [gdf[column] = scalar]: the scalar is broadcast to every row; an existing
    column of that name is overwritten. *)
Definition set_column (column : string) (v : cell) (gdf : list row) : list row :=
  (fun r : row => <[column := v]> r) <$> gdf.

(** What the services around the worker answer.  The n-th interaction with a
    service is answered by the oracle at index n, so that a service may
    answer differently from one call to the next. *)
Class Platform := {
  (** [s3_client.get_object(...)['Body'].read()], also what the reader
      behind [gpd.read_file("s3://...")] fetches *)
  s3_get_object_at : nat -> string -> string -> exn + string;
  (** [bytes.decode('utf-8')] *)
  decode_utf8 : string -> exn + string;
  (** [json.loads]; [inl msg] is a [JSONDecodeError] with text [msg] *)
  json_loads : string -> string + json;
  (** GeoPandas' parse of a file's bytes into rows (geometry and property
      columns) *)
  gpd_parse : string -> exn + list row;
  (** [datetime.utcnow()] *)
  utcnow_at : nat -> Z;
  (** [str(uuid.uuid4())] *)
  uuid4_at : nat -> string;
  (** [secrets_client.get_secret_value(...)['SecretString']] *)
  get_secret_value_at : nat -> exn + string;
  (** what an f-string prints for a decoded JSON value *)
  py_str : json -> string;
  type_error_text : json -> string;
  (** [sqlalchemy.create_engine]: the engine is identified by its URL *)
  create_engine : string -> exn + string;
  (** a connection failure at the n-th use of the database *)
  db_connect_fault_at : nat -> option exn;
  (** a rejected write, at the n-th use of the database, of the given rows
      to the given table *)
  db_write_fault_at : nat -> string -> list row -> option exn
}.

(** The state the worker acts on: how often each service was used, the
    cached engine [self.db_engine], the destination database and the log. *)
Record World := {
  s3_reads : nat;
  secret_reads : nat;
  db_ops : nat;
  clock_reads : nat;
  uuid_draws : nat;
  db_engine : option string;
  postgis : bool;
  tables : gmap string (list row);
  log : list (log_level * string)
}.

Definition with_s3_reads n w :=
  {| s3_reads := n; secret_reads := secret_reads w; db_ops := db_ops w;
     clock_reads := clock_reads w; uuid_draws := uuid_draws w;
     db_engine := db_engine w; postgis := postgis w; tables := tables w;
     log := log w |}.
Definition with_secret_reads n w :=
  {| s3_reads := s3_reads w; secret_reads := n; db_ops := db_ops w;
     clock_reads := clock_reads w; uuid_draws := uuid_draws w;
     db_engine := db_engine w; postgis := postgis w; tables := tables w;
     log := log w |}.
Definition with_db_ops n w :=
  {| s3_reads := s3_reads w; secret_reads := secret_reads w; db_ops := n;
     clock_reads := clock_reads w; uuid_draws := uuid_draws w;
     db_engine := db_engine w; postgis := postgis w; tables := tables w;
     log := log w |}.
Definition with_clock_reads n w :=
  {| s3_reads := s3_reads w; secret_reads := secret_reads w; db_ops := db_ops w;
     clock_reads := n; uuid_draws := uuid_draws w;
     db_engine := db_engine w; postgis := postgis w; tables := tables w;
     log := log w |}.
Definition with_uuid_draws n w :=
  {| s3_reads := s3_reads w; secret_reads := secret_reads w; db_ops := db_ops w;
     clock_reads := clock_reads w; uuid_draws := n;
     db_engine := db_engine w; postgis := postgis w; tables := tables w;
     log := log w |}.
Definition with_db_engine e w :=
  {| s3_reads := s3_reads w; secret_reads := secret_reads w; db_ops := db_ops w;
     clock_reads := clock_reads w; uuid_draws := uuid_draws w;
     db_engine := e; postgis := postgis w; tables := tables w;
     log := log w |}.
Definition with_postgis b w :=
  {| s3_reads := s3_reads w; secret_reads := secret_reads w; db_ops := db_ops w;
     clock_reads := clock_reads w; uuid_draws := uuid_draws w;
     db_engine := db_engine w; postgis := b; tables := tables w;
     log := log w |}.
Definition with_tables t w :=
  {| s3_reads := s3_reads w; secret_reads := secret_reads w; db_ops := db_ops w;
     clock_reads := clock_reads w; uuid_draws := uuid_draws w;
     db_engine := db_engine w; postgis := postgis w; tables := t;
     log := log w |}.
Definition with_log l w :=
  {| s3_reads := s3_reads w; secret_reads := secret_reads w; db_ops := db_ops w;
     clock_reads := clock_reads w; uuid_draws := uuid_draws w;
     db_engine := db_engine w; postgis := postgis w; tables := tables w;
     log := l |}.

Section Worker.
Context `{P : Platform}.
Local Open Scope py_scope.

(** [logger.info] and [logger.error] append one line. *)
Definition logger (level : log_level) (msg : string) : M World unit :=
  modify (fun w => with_log (log w ++ [(level, msg)])%list w).

(** One read of an object from the store. *)
Definition s3_get_object (bucket key : string) : M World string :=
  fun w => (s3_get_object_at (s3_reads w) bucket key,
            with_s3_reads (S (s3_reads w)) w).

(** [gpd.read_file(f"s3://{bucket}/{key}")]: the reader fetches the object
    itself and parses what it fetched. *)
Definition gpd_read_file (bucket key : string) : M World (list row) :=
  body <- s3_get_object bucket key ;;
  lift (gpd_parse body).

Definition loads (text : string) : M World json :=
  match json_loads text with
  | inl msg => raise (Exn JSONDecodeError msg)
  | inr v => ret v
  end.

Definition utcnow : M World Z :=
  fun w => (inr (utcnow_at (clock_reads w)),
            with_clock_reads (S (clock_reads w)) w).

Definition uuid4 : M World string :=
  fun w => (inr (uuid4_at (uuid_draws w)),
            with_uuid_draws (S (uuid_draws w)) w).

Definition get_secret_value : M World string :=
  fun w => (get_secret_value_at (secret_reads w),
            with_secret_reads (S (secret_reads w)) w).

(** [with engine.connect() as conn: conn.execute(text("CREATE EXTENSION IF
    NOT EXISTS postgis;")); conn.commit()] *)
Definition ensure_postgis : M World unit :=
  fun w =>
    let w' := with_db_ops (S (db_ops w)) w in
    match db_connect_fault_at (db_ops w) with
    | Some e => (inl e, w')
    | None => (inr tt, with_postgis true w')
    end.

(** [gdf.to_postgis(table_name, engine, if_exists='replace', index=False,
    chunksize=1000)]: the write runs in one transaction, so it either
    replaces the table by the rows of [gdf] or leaves the database as it
    was. *)
Definition to_postgis (gdf : list row) (name engine : string) : M World unit :=
  fun w =>
    let w' := with_db_ops (S (db_ops w)) w in
    match db_connect_fault_at (db_ops w) with
    | Some e => (inl e, w')
    | None =>
        match db_write_fault_at (db_ops w) name gdf with
        | Some e => (inl e, w')
        | None => (inr tt, with_tables (<[name := gdf]> (tables w')) w')
        end
    end.

Definition get_db_connection : M World string :=
  w <- get ;;
  match db_engine w with
  | Some engine => ret engine
  | None =>
      try_except
        (secret_string <- get_secret_value ;;
         secret <- loads secret_string ;;
         username <- lift (getitem type_error_text secret "username") ;;
         password <- lift (getitem type_error_text secret "password") ;;
         host <- lift (getitem type_error_text secret "host") ;;
         port <- lift (getitem type_error_text secret "port") ;;
         dbname <- lift (getitem type_error_text secret "dbname") ;;
         let connection_string :=
           "postgresql://" ++ py_str username ++ ":" ++ py_str password ++
           "@" ++ py_str host ++ ":" ++ py_str port ++ "/" ++ py_str dbname in
         engine <- lift (create_engine connection_string) ;;
         modify (with_db_engine (Some engine)) ;;;
         ensure_postgis ;;;
         logger INFO "Database connection established" ;;;
         ret engine)
        (fun e =>
           logger ERROR ("Failed to get database connection: " ++ exn_text e) ;;;
           raise e)
  end.

Definition process_geojson_file (bucket key : string) : M World (bool * string) :=
  logger INFO ("Processing file: s3://" ++ bucket ++ "/" ++ key) ;;;
  try_except
    (body <- s3_get_object bucket key ;;
     file_content <- lift (decode_utf8 body) ;;
     geojson_data <- loads file_content ;;
     let '(is_valid, message) := validate_geojson geojson_data in
     if negb is_valid then
       logger ERROR ("Invalid GeoJSON: " ++ message) ;;;
       ret (false, message)
     else
       gdf <- gpd_read_file bucket key ;;
       let gdf := set_column "file_source" (CText key) gdf in
       now <- utcnow ;;
       let gdf := set_column "processed_at" (CTime now) gdf in
       uid <- uuid4 ;;
       let gdf := set_column "processing_id" (CText uid) gdf in
       engine <- get_db_connection ;;
       let table_name := table_name key in
       to_postgis gdf table_name engine ;;;
       logger INFO ("Successfully processed " ++ PyStr.of_nat (List.length gdf) ++
                    " features into table '" ++ table_name ++ "'") ;;;
       ret (true, "Processed " ++ PyStr.of_nat (List.length gdf) ++ " features"))
    (fun e =>
       match exn_kind e with
       | JSONDecodeError =>
           let error_msg := "Invalid JSON format: " ++ exn_text e in
           logger ERROR error_msg ;;;
           ret (false, error_msg)
       | _ =>
           let error_msg := "Error processing file: " ++ exn_text e in
           logger ERROR error_msg ;;;
           ret (false, error_msg)
       end).

End Worker.

(** ** The dispatcher: the Lambda function (s3_processor.py) *)

(** One entry of [event['Records']]: [record['s3']['bucket']['name']] and
    [record['s3']['object']['key']], the key still percent-encoded.  Events
    follow the S3 notification schema. *)
Record s3_record := { record_bucket : string; record_key : string }.

(** The arguments of [ecs_client.run_task] that vary; the launch type
    (FARGATE), the public-IP setting (DISABLED), the container name, the
    processing mode (single_file) and the first two tags are constants. *)
Record task_config := {
  cluster : string;
  taskDefinition : string;
  subnets : list string;
  securityGroups : list string;
  env_S3_BUCKET : string;
  env_S3_KEY : string;
  tag_SourceFile : string
}.

Record ecs_failure := { failure_arn : string; failure_reason : string }.
Record ecs_task := { taskArn : string }.

(** The answer of [run_task]: [response.get('failures')] and
    [response.get('tasks', [])].  It has no top-level [taskArn]. *)
Record run_task_response := {
  failures : list ecs_failure;
  tasks : list ecs_task
}.

Class LambdaRuntime := {
  (** [urllib.parse.unquote_plus] *)
  unquote_plus : string -> string;
  (** [os.environ] *)
  environ : gmap string string;
  (** [ecs_client.run_task]: the answer may depend on the calls made so
      far *)
  run_task_at : list task_config -> task_config -> exn + run_task_response;
  (** how an f-string prints the list of failures *)
  repr_failures : list ecs_failure -> string
}.

(** The state the dispatcher acts on: the [run_task] calls made so far, in
    order, and the log. *)
Record Cloud := {
  ecs_calls : list task_config;
  lambda_log : list (log_level * string)
}.

Record lambda_response := {
  statusCode : nat;
  (** the dict handed to [json.dumps] *)
  body : list (string * string)
}.

Section Dispatcher.
Context `{R : LambdaRuntime}.
Local Open Scope py_scope.

Definition lambda_logger (level : log_level) (msg : string) : M Cloud unit :=
  modify (fun c => {| ecs_calls := ecs_calls c;
                      lambda_log := (lambda_log c ++ [(level, msg)])%list |}).

(** [os.environ[name]] *)
Definition getenv (name : string) : M Cloud string :=
  match environ !! name with
  | Some v => ret v
  | None => raise (Exn KeyError ("'" ++ name ++ "'"))
  end.

Definition run_task (config : task_config) : M Cloud run_task_response :=
  fun c => (run_task_at (ecs_calls c) config,
            {| ecs_calls := (ecs_calls c ++ [config])%list;
               lambda_log := lambda_log c |}).

Definition run_ecs_task (bucket key : string) : M Cloud run_task_response :=
  cluster_name <- getenv "ECS_CLUSTER_NAME" ;;
  task_definition <- getenv "ECS_TASK_DEFINITION" ;;
  subnets_csv <- getenv "ECS_SUBNETS" ;;
  let subnets := PyStr.split "," subnets_csv in
  security_group <- getenv "ECS_SECURITY_GROUPS" ;;
  let security_groups := [security_group] in
  let task_config :=
    {| cluster := cluster_name;
       taskDefinition := task_definition;
       subnets := subnets;
       securityGroups := security_groups;
       env_S3_BUCKET := bucket;
       env_S3_KEY := key;
       tag_SourceFile := "s3://" ++ bucket ++ "/" ++ key |} in
  response <- run_task task_config ;;
  match failures response with
  | _ :: _ =>
      let error_msg :=
        "ECS task failed to start: " ++ repr_failures (failures response) in
      lambda_logger ERROR error_msg ;;;
      raise (Exn OtherException error_msg)
  | [] =>
      match tasks response with
      | t :: _ =>
          lambda_logger INFO ("ECS task started successfully: " ++ taskArn t)
      | [] => ret tt
      end ;;;
      ret response
  end.

(** The body of [for record in event['Records']]. *)
Fixpoint handler_loop (records : list s3_record) : M Cloud unit :=
  match records with
  | [] => ret tt
  | record :: rest =>
      let bucket := record_bucket record in
      let key := unquote_plus (record_key record) in
      lambda_logger INFO ("Processing file: s3://" ++ bucket ++ "/" ++ key) ;;;
      if negb (PyStr.endswith (PyStr.lower key) ".geojson") then
        lambda_logger INFO ("Skipping non-GeoJSON file: " ++ key) ;;;
        handler_loop rest
      else
        response <- run_ecs_task bucket key ;;
        lambda_logger INFO "ECS task started: Unknown" ;;;
        handler_loop rest
  end.

(** [handler(event, context)]; [aws_request_id] is
    [context.aws_request_id].  The handler never raises. *)
Definition handler (records : list s3_record) (aws_request_id : string)
  : Cloud -> lambda_response * Cloud :=
  fun c =>
    match handler_loop records c with
    | (inr _, c') =>
        ({| statusCode := 200;
            body := [("message",
                      "Successfully processed " ++
                      PyStr.of_nat (List.length records) ++ " files");
                     ("timestamp", aws_request_id)] |}, c')
    | (inl e, c') =>
        match lambda_logger ERROR
                ("Error processing S3 event: " ++ exn_text e) c' with
        | (_, c'') =>
            ({| statusCode := 500;
                body := [("error", exn_text e);
                         ("timestamp", aws_request_id)] |}, c'')
        end
    end.

(** The body of [for folder in system_folders], on the lower-cased key. *)
Fixpoint first_system_folder (folders : list string) (lowered : string)
  : option string :=
  match folders with
  | [] => None
  | folder :: rest =>
      if PyStr.contains folder lowered then Some folder
      else first_system_folder rest lowered
  end.

Definition validate_geojson_key (key : string) : bool * string :=
  if negb (PyStr.endswith (PyStr.lower key) ".geojson") then
    (false, "Not a GeoJSON file")
  else
    let system_folders := ["_system"; ".tmp"; "logs"; "backups"] in
    match first_system_folder system_folders (PyStr.lower key) with
    | Some folder => (false, "File in system folder: " ++ folder)
    | None => (true, "Valid GeoJSON file")
    end.

End Dispatcher.

(** ** Concrete scenarios

    Object contents, a platform and a Lambda runtime on which the program
    can be run.  [json_loads] and [gpd_parse] are given on the object
    contents that occur, with the values the libraries produce there. *)

Module Scenario.

Definition dq : string := String (ascii_of_nat 34) EmptyString.
Definition quoted (s : string) : string := dq ++ s ++ dq.

(** [{"type":"Feature","geometry":{"type":"Point","coordinates":[a,b]},
     "properties":{"name":n}}] *)
Definition feature_text (a b n : string) : string :=
  "{" ++ quoted "type" ++ ":" ++ quoted "Feature" ++ "," ++
  quoted "geometry" ++ ":{" ++ quoted "type" ++ ":" ++ quoted "Point" ++ "," ++
  quoted "coordinates" ++ ":[" ++ a ++ "," ++ b ++ "]}," ++
  quoted "properties" ++ ":{" ++ quoted "name" ++ ":" ++ quoted n ++ "}}".

Definition collection_text (features : string) : string :=
  "{" ++ quoted "type" ++ ":" ++ quoted "FeatureCollection" ++ "," ++
  quoted "features" ++ ":[" ++ features ++ "]}".

Definition body_one : string := collection_text (feature_text "1" "2" "x").
Definition body_two : string :=
  collection_text (feature_text "1" "2" "x" ++ "," ++ feature_text "3" "4" "y").
Definition body_empty : string := collection_text "".

Definition point (a b : Z) : json :=
  JDict [("type", JStr "Point"); ("coordinates", JList [JInt a; JInt b])].

Definition feature (a b : Z) (n : string) : json :=
  JDict [("type", JStr "Feature"); ("geometry", point a b);
         ("properties", JDict [("name", JStr n)])].

Definition collection (features : list json) : json :=
  JDict [("type", JStr "FeatureCollection"); ("features", JList features)].

Definition doc_one : json := collection [feature 1 2 "x"].
Definition doc_two : json := collection [feature 1 2 "x"; feature 3 4 "y"].
Definition doc_empty : json := collection [].

Definition gdf_row (a b : Z) (n : string) : row :=
  <["geometry" := CJson (point a b)]> (<["name" := CJson (JStr n)]> ∅).

Definition secret_text : string :=
  "{" ++ quoted "username" ++ ":" ++ quoted "gis" ++ "," ++
  quoted "password" ++ ":" ++ quoted "pw" ++ "," ++
  quoted "host" ++ ":" ++ quoted "db.internal" ++ "," ++
  quoted "port" ++ ":5432," ++ quoted "dbname" ++ ":" ++ quoted "geo" ++ "}".

Definition secret_doc : json :=
  JDict [("username", JStr "gis"); ("password", JStr "pw");
         ("host", JStr "db.internal"); ("port", JInt 5432);
         ("dbname", JStr "geo")].

Definition scenario_loads (text : string) : string + json :=
  if String.eqb text body_one then inr doc_one
  else if String.eqb text body_two then inr doc_two
  else if String.eqb text body_empty then inr doc_empty
  else if String.eqb text secret_text then inr secret_doc
  else inl "Expecting value: line 1 column 1 (char 0)".

Definition scenario_parse (body : string) : exn + list row :=
  if String.eqb body body_one then inr [gdf_row 1 2 "x"]
  else if String.eqb body body_two then inr [gdf_row 1 2 "x"; gdf_row 3 4 "y"]
  else inl (Exn OtherException "Failed to read file").

(** [region/a.geojson] and [region/empty.geojson] keep their content;
    [region/live.geojson] is overwritten after the first read of the
    store. *)
Definition scenario_s3 (n : nat) (bucket key : string) : exn + string :=
  if String.eqb key "region/a.geojson" then inr body_one
  else if String.eqb key "region/empty.geojson" then inr body_empty
  else if String.eqb key "region/live.geojson" then
    inr (if (n =? 0)%nat then body_one else body_two)
  else inl (Exn OtherException
              "An error occurred (NoSuchKey) when calling the GetObject operation").

Definition scenario_str (v : json) : string :=
  match v with
  | JStr s => s
  | JInt n => PyStr.of_nat (Z.to_nat n)
  | _ => "None"
  end.

Definition connection_refused : exn :=
  Exn OtherException "could not connect to server: Connection refused".

(** The platform, with the database reachable or not. *)
Definition platform (db_down : bool) : Platform := {|
  s3_get_object_at := scenario_s3;
  decode_utf8 := fun body => inr body;
  json_loads := scenario_loads;
  gpd_parse := scenario_parse;
  utcnow_at := fun n => (1700000000 + Z.of_nat n)%Z;
  uuid4_at := fun n => "uuid-" ++ PyStr.of_nat n;
  get_secret_value_at := fun _ => inr secret_text;
  py_str := scenario_str;
  type_error_text := fun _ => "'NoneType' object is not subscriptable";
  create_engine := fun url => inr url;
  db_connect_fault_at := fun _ => if db_down then Some connection_refused else None;
  db_write_fault_at := fun _ _ _ => None
|}.

(** A freshly started worker over an empty database. *)
Definition fresh : World := {|
  s3_reads := 0; secret_reads := 0; db_ops := 0; clock_reads := 0;
  uuid_draws := 0; db_engine := None; postgis := false; tables := ∅;
  log := []
|}.

(** The Lambda runtime.  On a crowded cluster [run_task] answers with a
    failure for keys under [full/]; otherwise it answers with a started
    task.  The keys of the scenarios contain neither [%] nor [+], on which
    [unquote_plus] is the identity. *)
Definition scenario_run_task (crowded : bool) (history : list task_config)
    (config : task_config) : exn + run_task_response :=
  if crowded && String.prefix "full/" (env_S3_KEY config) then
    inr {| failures := [{| failure_arn := "arn:aws:ecs:cluster/geo";
                           failure_reason := "RESOURCE:MEMORY" |}];
           tasks := [] |}
  else
    inr {| failures := [];
           tasks := [{| taskArn := "arn:aws:ecs:task/" ++
                                   PyStr.of_nat (List.length history) |}] |}.

Definition runtime (crowded : bool) : LambdaRuntime := {|
  unquote_plus := fun key => key;
  environ :=
    <["ECS_CLUSTER_NAME" := "geo"]>
      (<["ECS_TASK_DEFINITION" := "geojson-processor:1"]>
         (<["ECS_SUBNETS" := "subnet-1,subnet-2"]>
            (<["ECS_SECURITY_GROUPS" := "sg-1"]> ∅)));
  run_task_at := scenario_run_task crowded;
  repr_failures := fun _ =>
    "[{'arn': 'arn:aws:ecs:cluster/geo', 'reason': 'RESOURCE:MEMORY'}]"
|}.

Definition idle : Cloud := {| ecs_calls := []; lambda_log := [] |}.

Definition upload (key : string) : s3_record :=
  {| record_bucket := "uploads"; record_key := key |}.

End Scenario.


(** * Vocabulary of the specification

    The notions the specification's statements are phrased in. *)

(** The derivation in the specification's words: one pass that replaces each
    separator by an underscore, then the prefix, lower-casing and the cut at
    63 characters.  Lower-casing is given by the table of capital letters
    with their small letters: A to Z, and the accented capitals of Latin-1
    (U+00C0 to U+00DE without the multiplication sign U+00D7) by code
    point. *)
Definition is_separator (c : ascii) : bool :=
  Ascii.eqb c "/" || Ascii.eqb c "." || Ascii.eqb c "-".

Definition basic_capitals : list (ascii * ascii) :=
  combine (list_ascii_of_string "ABCDEFGHIJKLMNOPQRSTUVWXYZ")
          (list_ascii_of_string "abcdefghijklmnopqrstuvwxyz").

Definition latin1_capitals : list (ascii * ascii) :=
  (fun p : nat * nat => (ascii_of_nat (fst p), ascii_of_nat (snd p))) <$>
  [(192, 224); (193, 225); (194, 226); (195, 227); (196, 228); (197, 229);
   (198, 230); (199, 231); (200, 232); (201, 233); (202, 234); (203, 235);
   (204, 236); (205, 237); (206, 238); (207, 239); (208, 240); (209, 241);
   (210, 242); (211, 243); (212, 244); (213, 245); (214, 246); (216, 248);
   (217, 249); (218, 250); (219, 251); (220, 252); (221, 253); (222, 254)].

Definition small_letter_of (c : ascii) : ascii :=
  match List.find (fun p => Ascii.eqb (fst p) c)
                  (List.app basic_capitals latin1_capitals) with
  | Some p => snd p
  | None => c
  end.

(** The operations on the specification's side are taken from the standard
    library: mapping over the list of characters and [substring]. *)
Definition each_char (f : ascii -> ascii) (s : string) : string :=
  string_of_list_ascii (List.map f (list_ascii_of_string s)).

Definition deriveTableName_spec (key : string) : string :=
  String.substring 0 63
    (each_char small_letter_of
       ("geojson_" ++ each_char (fun c => if is_separator c then "_"%char else c) key)).

Definition is_object (v : json) : Prop := exists entries, v = JDict entries.
Definition is_list (v : json) : Prop := exists items, v = JList items.

(** The violations the specification lists, each stated on the document. *)
Inductive violation : json -> Prop :=
| not_an_object d :
    ~ is_object d -> violation d
| not_a_collection top :
    dict_get "type" top <> Some (JStr "FeatureCollection") -> violation (JDict top)
| features_absent top :
    dict_get "features" top = None -> violation (JDict top)
| features_not_a_list top v :
    dict_get "features" top = Some v -> ~ is_list v -> violation (JDict top)
| features_empty top :
    dict_get "features" top = Some (JList []) -> violation (JDict top)
| element_not_an_object top features f :
    dict_get "features" top = Some (JList features) ->
    In f features -> ~ is_object f -> violation (JDict top)
| element_not_a_feature top features fields :
    dict_get "features" top = Some (JList features) ->
    In (JDict fields) features ->
    dict_get "type" fields <> Some (JStr "Feature") -> violation (JDict top)
| element_without_geometry top features fields :
    dict_get "features" top = Some (JList features) ->
    In (JDict fields) features ->
    dict_get "geometry" fields = None -> violation (JDict top).

(** A feature the validator has nothing to object to: an object whose type
    is "Feature" and that has a geometry key, whatever its value. *)
Definition feature_ok (f : json) : Prop :=
  exists fields geometry,
    f = JDict fields /\
    dict_get "type" fields = Some (JStr "Feature") /\
    dict_get "geometry" fields = Some geometry.

(** The message for the feature at index [i], by its first defect. *)
Definition feature_defect (i : nat) (f : json) : string :=
  match f with
  | JDict fields =>
      match dict_get "type" fields with
      | Some (JStr "Feature") => "Feature " ++ PyStr.of_nat i ++ " missing geometry"
      | _ => "Feature " ++ PyStr.of_nat i ++ " type is not 'Feature'"
      end
  | _ => "Feature " ++ PyStr.of_nat i ++ " is not an object"
  end.

(** The three provenance columns, as the worker sets them. *)
Definition stamp (key : string) (now : Z) (uid : string) (gdf : list row) : list row :=
  set_column "processing_id" (CText uid)
    (set_column "processed_at" (CTime now)
       (set_column "file_source" (CText key) gdf)).

(** The text the worker returns for an exception caught at its boundary. *)
Definition failure_message (e : exn) : string :=
  match exn_kind e with
  | JSONDecodeError => "Invalid JSON format: " ++ exn_text e
  | _ => "Error processing file: " ++ exn_text e
  end.

(** The state of the world when the worker reaches the load: the object
    read twice, the clock and the id source used once, one line logged. *)
Definition before_load (bucket key : string) (w : World) : World :=
  with_uuid_draws (S (uuid_draws w))
    (with_clock_reads (S (clock_reads w))
       (with_s3_reads (S (S (s3_reads w)))
          (with_log
             (List.app (log w) [(INFO, "Processing file: s3://" ++ bucket ++ "/" ++ key)])
             w))).

Section WorkerVocabulary.
Context `{P : Platform}.

(** The source passes fetch, decoding, parsing and validation at the first
    read, and the second read parses into [rows]. *)
Definition reaches_load (bucket key : string) (w : World) (rows : list row) : Prop :=
  exists body1 text doc body2,
    s3_get_object_at (s3_reads w) bucket key = inr body1 /\
    decode_utf8 body1 = inr text /\
    json_loads text = inr doc /\
    fst (validate_geojson doc) = true /\
    s3_get_object_at (S (s3_reads w)) bucket key = inr body2 /\
    gpd_parse body2 = inr rows.


(** The secret can be fetched, is a JSON object with the five connection
    fields, and yields an engine. *)
Definition credentials_resolve : Prop :=
  exists text secret username password host port dbname engine,
    (forall n, get_secret_value_at n = inr text) /\
    json_loads text = inr (JDict secret) /\
    dict_get "username" secret = Some username /\
    dict_get "password" secret = Some password /\
    dict_get "host" secret = Some host /\
    dict_get "port" secret = Some port /\
    dict_get "dbname" secret = Some dbname /\
    create_engine
      ("postgresql://" ++ py_str username ++ ":" ++ py_str password ++
       "@" ++ py_str host ++ ":" ++ py_str port ++ "/" ++ py_str dbname)
    = inr engine.

(** The first read of the object is fetched, decoded, parsed and accepted
    by the validator. *)
Definition passes_validation (bucket key : string) (w : World) : Prop :=
  exists body text doc,
    s3_get_object_at (s3_reads w) bucket key = inr body /\
    decode_utf8 body = inr text /\
    json_loads text = inr doc /\
    fst (validate_geojson doc) = true.

(** What the GeoPandas reader makes of the second read. *)
Definition second_read (bucket key : string) (w : World) : exn + list row :=
  match s3_get_object_at (S (s3_reads w)) bucket key with
  | inl e => inl e
  | inr body => gpd_parse body
  end.

(** The load stage raises [e]: reading the rows, connecting to the store or
    writing the table. *)
Definition load_fails_with (bucket key : string) (w : World) (e : exn) : Prop :=
  second_read bucket key w = inl e \/
  exists rows,
    second_read bucket key w = inr rows /\
    ((exists w1, get_db_connection (before_load bucket key w) = (inl e, w1)) \/
     (exists engine w1 w2,
        get_db_connection (before_load bucket key w) = (inr engine, w1) /\
        to_postgis
          (stamp key (utcnow_at (clock_reads w)) (uuid4_at (uuid_draws w)) rows)
          (table_name key) engine w1 = (inl e, w2))).

End WorkerVocabulary.

(** The filter the handler applies to a decoded key. *)
Definition is_geojson_key (key : string) : bool :=
  PyStr.endswith (PyStr.lower key) ".geojson".

(** The keys for which [run_task] has been called, in order. *)
Definition launched_keys (c : Cloud) : list string := env_S3_KEY <$> ecs_calls c.

(** The cloud with one more line in the log. *)
Definition logged (level : log_level) (msg : string) (c : Cloud) : Cloud :=
  {| ecs_calls := ecs_calls c;
     lambda_log := List.app (lambda_log c) [(level, msg)] |}.

Section DispatcherVocabulary.
Context `{R : LambdaRuntime}.

Definition decoded_key (record : s3_record) : string :=
  unquote_plus (record_key record).

(** The four settings are present and every [run_task] call is answered
    without failures. *)
Definition launches_succeed : Prop :=
  (exists cluster_name task_definition subnets_csv security_group,
     environ !! "ECS_CLUSTER_NAME" = Some cluster_name /\
     environ !! "ECS_TASK_DEFINITION" = Some task_definition /\
     environ !! "ECS_SUBNETS" = Some subnets_csv /\
     environ !! "ECS_SECURITY_GROUPS" = Some security_group) /\
  (forall history config,
     exists response,
       run_task_at history config = inr response /\ failures response = []).

(** Per-item isolation as the specification words it: after the handler
    has run, every key of the batch that passes the filter has had its
    launch attempted. *)
Definition every_qualifying_key_attempted (records : list s3_record)
    (c' : Cloud) : Prop :=
  forall record,
    In record records -> is_geojson_key (decoded_key record) = true ->
    In (decoded_key record) (launched_keys c').

End DispatcherVocabulary.

(** * Further vocabulary and code *)

(** A key as the table name sees it: separators replaced, lower-cased. *)
Definition normalized_key (key : string) : string :=
  PyStr.lower (PyStr.map (fun c => if is_separator c then "_"%char else c) key).

(** A character of the ASCII range, on which lower-casing looks at the
    character alone. *)
Definition is_ascii_char (c : ascii) : bool := (nat_of_ascii c <? 128)%nat.

(** A character a table name can hold: no separator, and its own lower
    case. *)
Definition identifier_char (c : ascii) : bool :=
  negb (is_separator c) && Ascii.eqb (PyStr.lower_char c) c.

(** Every character of [s] passes the test [p]. *)
Fixpoint all_chars (p : ascii -> bool) (s : string) : bool :=
  match s with
  | EmptyString => true
  | String c s' => p c && all_chars p s'
  end.

(** The document [{"type": "FeatureCollection", "features": [...]}]. *)
Definition feature_collection (features : list json) : json :=
  JDict [("type", JStr "FeatureCollection"); ("features", JList features)].

(** The five messages of the validator that do not name a feature. *)
Definition document_messages : list string :=
  ["GeoJSON must be a JSON object"; "Must be a FeatureCollection";
   "No features found"; "Features must be a list"; "No features in collection"].

(** The first of [fields] that the dict [secret] lacks. *)
Fixpoint first_missing (fields : list string) (secret : list (string * json))
  : option string :=
  match fields with
  | [] => None
  | field :: rest =>
      if dict_has field secret then first_missing rest secret else Some field
  end.

(** The fields of the secret, in the order the connection string reads
    them. *)
Definition connection_fields : list string :=
  ["username"; "password"; "host"; "port"; "dbname"].

Section WorkerFurtherVocabulary.
Context `{P : Platform}.

(** The source cannot be fetched, decoded or parsed; [e] is the exception
    raised. *)
Definition source_unreadable (bucket key : string) (w : World) (e : exn) : Prop :=
  s3_get_object_at (s3_reads w) bucket key = inl e \/
  (exists body,
     s3_get_object_at (s3_reads w) bucket key = inr body /\
     decode_utf8 body = inl e) \/
  (exists body text msg,
     s3_get_object_at (s3_reads w) bucket key = inr body /\
     decode_utf8 body = inr text /\
     json_loads text = inl msg /\ e = Exn JSONDecodeError msg).

End WorkerFurtherVocabulary.

(** Scenarios in which the secret is defective: one that lacks the port,
    and one whose text is a connection URL instead of JSON. *)
Module ScenarioSecrets.

Definition no_port_text : string :=
  "{" ++ Scenario.quoted "username" ++ ":" ++ Scenario.quoted "gis" ++ "," ++
  Scenario.quoted "password" ++ ":" ++ Scenario.quoted "pw" ++ "," ++
  Scenario.quoted "host" ++ ":" ++ Scenario.quoted "db.internal" ++ "," ++
  Scenario.quoted "dbname" ++ ":" ++ Scenario.quoted "geo" ++ "}".

Definition no_port_doc : list (string * json) :=
  [("username", JStr "gis"); ("password", JStr "pw");
   ("host", JStr "db.internal"); ("dbname", JStr "geo")].

Definition url_text : string := "postgresql://gis:pw@db.internal:5432/geo".

Definition loads (text : string) : string + json :=
  if String.eqb text no_port_text then inr (JDict no_port_doc)
  else Scenario.scenario_loads text.

Definition platform (secret_text : string) : Platform := {|
  s3_get_object_at := Scenario.scenario_s3;
  decode_utf8 := fun body => inr body;
  json_loads := loads;
  gpd_parse := Scenario.scenario_parse;
  utcnow_at := fun n => (1700000000 + Z.of_nat n)%Z;
  uuid4_at := fun n => "uuid-" ++ PyStr.of_nat n;
  get_secret_value_at := fun _ => inr secret_text;
  py_str := Scenario.scenario_str;
  type_error_text := fun _ => "'NoneType' object is not subscriptable";
  create_engine := fun url => inr url;
  db_connect_fault_at := fun _ => None;
  db_write_fault_at := fun _ _ _ => None
|}.

End ScenarioSecrets.

(** The names of the handler's folder denylist. *)
Definition system_folder_names : list string := ["_system"; ".tmp"; "logs"; "backups"].

(** The settings [run_ecs_task] reads, in the order it reads them. *)
Definition ecs_settings : list string :=
  ["ECS_CLUSTER_NAME"; "ECS_TASK_DEFINITION"; "ECS_SUBNETS"; "ECS_SECURITY_GROUPS"].

(** The bucket and key a [run_task] call was made for. *)
Definition launch_target (config : task_config) : string * string :=
  (env_S3_BUCKET config, env_S3_KEY config).

Section DispatcherFurtherVocabulary.
Context `{R : LambdaRuntime}.

(** The first of [names] that is not set in the environment. *)
Fixpoint first_unset (names : list string) : option string :=
  match names with
  | [] => None
  | name :: rest =>
      match environ !! name with
      | Some _ => first_unset rest
      | None => Some name
      end
  end.

(** The bucket and decoded key of the notifications that pass the
    extension filter, in batch order. *)
Definition qualifying_targets (records : list s3_record) : list (string * string) :=
  (fun record => (record_bucket record, decoded_key record)) <$>
  filter (fun record => is_geojson_key (decoded_key record) = true) records.

End DispatcherFurtherVocabulary.

(** A Lambda runtime whose environment lacks the subnets setting. *)
Module ScenarioUnset.

Definition runtime : LambdaRuntime := {|
  unquote_plus := fun key => key;
  environ :=
    <["ECS_CLUSTER_NAME" := "geo"]>
      (<["ECS_TASK_DEFINITION" := "geojson-processor:1"]>
         (<["ECS_SECURITY_GROUPS" := "sg-1"]> ∅));
  run_task_at := Scenario.scenario_run_task false;
  repr_failures := fun _ => "[]"
|}.

End ScenarioUnset.

(** * The HTTP surface of the worker (app.py, [process_file] and [status])

    The two routes that act on the processor.  A reply is the status code
    and the dict handed to [jsonify]. *)

Record http_reply := {
  reply_status : nat;
  reply_json : list (string * json)
}.

(** What the routes need beyond the platform. *)
Class WebRuntime := {
  (** [processor.s3_bucket], that is [os.getenv('S3_BUCKET')] when the
      processor was created; [None] when the variable is unset *)
  s3_bucket : option string;
  (** whether a JSON number with a fraction or exponent is zero *)
  float_is_zero : string -> bool;
  (** the text of botocore's [ParamValidationError] for a [get_object] call
      whose Bucket or Key is not a [str] *)
  param_validation_text : json -> json -> string;
  (** [datetime.isoformat()] *)
  isoformat : Z -> string;
  (** the value [SELECT version();] yields at the n-th use of the
      database *)
  db_version_at : nat -> string
}.

(** The name Python gives the type of a decoded JSON value. *)
Definition py_type_name (v : json) : string :=
  match v with
  | JNull => "NoneType"
  | JBool _ => "bool"
  | JInt _ => "int"
  | JFloat _ => "float"
  | JStr _ => "str"
  | JList _ => "list"
  | JDict _ => "dict"
  end.

(** [data.get(k, default)] on whatever [request.get_json()] returned: only
    a dict has [get]; the [AttributeError] of the other types carries no
    class the program tells apart. *)
Definition get_attr_get (data : json) (k : string) (default : json) : exn + json :=
  match data with
  | JDict entries =>
      inr (match dict_get k entries with Some v => v | None => default end)
  | _ =>
      inl (Exn OtherException
             ("'" ++ py_type_name data ++ "' object has no attribute 'get'"))
  end.

Section Routes.
Context `{P : Platform} `{W : WebRuntime}.
Local Open Scope py_scope.

(** Python's truth value of a decoded JSON value, as [if not key] tests
    it. *)
Definition truthy (v : json) : bool :=
  match v with
  | JNull => false
  | JBool b => b
  | JInt n => negb (n =? 0)%Z
  | JFloat literal => negb (float_is_zero literal)
  | JStr s => negb (String.eqb s "")
  | JList items => match items with [] => false | _ => true end
  | JDict entries => match entries with [] => false | _ => true end
  end.

(** What an f-string prints for a value: a [str] as it is. *)
Definition format_value (v : json) : string :=
  match v with
  | JStr s => s
  | _ => py_str v
  end.

(** [processor.process_geojson_file(bucket, key)] as the route calls it, with
    values taken from the request.  With two strings it is the function
    above.  Otherwise [get_object] rejects its arguments before any request
    is sent, and the exception is caught by the function's last [except]
    clause. *)
Definition process_geojson_file_values (bucket key : json) : M World (bool * string) :=
  match bucket, key with
  | JStr b, JStr k => process_geojson_file b k
  | _, _ =>
      logger INFO ("Processing file: s3://" ++ format_value bucket ++ "/" ++
                   format_value key) ;;;
      let error_msg := "Error processing file: " ++ param_validation_text bucket key in
      logger ERROR error_msg ;;;
      ret (false, error_msg)
  end.

(** The route [/process]; [request_json] is what [request.get_json()] does
    for the request: the decoded body, or the exception it raises. *)
Definition process_file (request_json : exn + json) : M World http_reply :=
  try_except
    (data <- lift request_json ;;
     bucket <- lift (get_attr_get data "bucket"
                       (match s3_bucket with Some b => JStr b | None => JNull end)) ;;
     key <- lift (get_attr_get data "key" JNull) ;;
     if negb (truthy key) then
       ret {| reply_status := 400;
              reply_json := [("error", JStr "Missing key parameter")] |}
     else
       result <- process_geojson_file_values bucket key ;;
       let '(success, message) := result in
       let file := "s3://" ++ format_value bucket ++ "/" ++ format_value key in
       if success then
         ret {| reply_status := 200;
                reply_json := [("status", JStr "success"); ("message", JStr message);
                               ("file", JStr file)] |}
       else
         ret {| reply_status := 400;
                reply_json := [("status", JStr "error"); ("message", JStr message);
                               ("file", JStr file)] |})
    (fun e =>
       logger ERROR ("Error in process endpoint: " ++ exn_text e) ;;;
       ret {| reply_status := 500; reply_json := [("error", JStr (exn_text e))] |}).

(** [with engine.connect() as conn: conn.execute(text("SELECT version();"))
    .scalar()] *)
Definition select_version : M World string :=
  fun w =>
    let w' := with_db_ops (S (db_ops w)) w in
    match db_connect_fault_at (db_ops w) with
    | Some e => (inl e, w')
    | None => (inr (db_version_at (db_ops w)), w')
    end.

(** The route [/status]. *)
Definition status : M World http_reply :=
  try_except
    (engine <- get_db_connection ;;
     db_version <- select_version ;;
     now <- utcnow ;;
     ret {| reply_status := 200;
            reply_json :=
              [("status", JStr "operational"); ("database", JStr "connected");
               ("db_version", JStr db_version);
               ("s3_bucket", match s3_bucket with Some b => JStr b | None => JNull end);
               ("timestamp", JStr (isoformat now))] |})
    (fun e =>
       now <- utcnow ;;
       ret {| reply_status := 503;
              reply_json :=
                [("status", JStr "degraded"); ("error", JStr (exn_text e));
                 ("timestamp", JStr (isoformat now))] |}).

End Routes.

(** A worker started with [S3_BUCKET=uploads].  The requests of the
    scenarios hold no number with an exponent, and the clock of the scenarios
    stays within ten seconds of 2023-11-14T22:13:20. *)
Module ScenarioWeb.

Definition web : WebRuntime := {|
  s3_bucket := Some "uploads";
  float_is_zero := all_chars (fun c => Ascii.eqb c "0" || Ascii.eqb c "." || Ascii.eqb c "-");
  param_validation_text := fun _ _ =>
    "Parameter validation failed: Invalid type for parameter Key";
  isoformat := fun t => "2023-11-14T22:13:2" ++ PyStr.of_nat (Z.to_nat (t - 1700000000));
  db_version_at := fun _ => "PostgreSQL 15.4"
|}.

Definition request (key : string) : exn + json :=
  inr (JDict [("key", JStr key)]).

End ScenarioWeb.


(** * Properties *)

(** ** Strings *)

Lemma map_map_str (f g : ascii -> ascii) (s : string) :
  PyStr.map f (PyStr.map g s) = PyStr.map (fun c => f (g c)) s.
Proof. induction s as [|c s IH]; simpl; [reflexivity | now rewrite IH]. Qed.

Lemma map_ext_str (f g : ascii -> ascii) (s : string) :
  (forall c, f c = g c) -> PyStr.map f s = PyStr.map g s.
Proof.
  intros Hfg. induction s as [|c s IH]; simpl; [reflexivity|].
  now rewrite Hfg, IH.
Qed.

Lemma map_length_str (f : ascii -> ascii) (s : string) :
  String.length (PyStr.map f s) = String.length s.
Proof. induction s as [|c s IH]; simpl; [reflexivity | now rewrite IH]. Qed.

Lemma take_length_str (n : nat) (s : string) :
  String.length (PyStr.take n s) = Nat.min n (String.length s).
Proof.
  revert s. induction n as [|n IH]; intros [|c s]; simpl; try reflexivity.
  now rewrite IH.
Qed.

Lemma append_length_str (s t : string) :
  String.length (s ++ t) = (String.length s + String.length t)%nat.
Proof. induction s as [|c s IH]; simpl; [reflexivity | now rewrite IH]. Qed.

(** ** Table-name derivation *)

Lemma three_replaces_one_pass (key : string) :
  PyStr.replace "-" "_" (PyStr.replace "." "_" (PyStr.replace "/" "_" key)) =
  PyStr.map (fun c => if is_separator c then "_"%char else c) key.
Proof.
  unfold PyStr.replace. rewrite !map_map_str. apply map_ext_str.
  intros c. unfold is_separator.
  destruct (Ascii.eqb_spec c "/") as [->|H1]; [reflexivity|].
  destruct (Ascii.eqb_spec c ".") as [->|H2]; [reflexivity|].
  destruct (Ascii.eqb_spec c "-") as [->|H3]; reflexivity.
Qed.

(** ** The validator *)

Lemma ne_str_false (v : option json) (s : string) :
  ne_str v s = false <-> v = Some (JStr s).
Proof.
  unfold ne_str. destruct v as [[]|]; split; try discriminate.
  - intros H. apply negb_false_iff, String.eqb_eq in H. now subst.
  - intros [= ->]. now rewrite String.eqb_refl.
Qed.

Lemma ne_str_true (v : option json) (s : string) :
  ne_str v s = true <-> v <> Some (JStr s).
Proof.
  rewrite <- ne_str_false. destruct (ne_str v s); split; congruence.
Qed.

(** One turn of the loop on a feature without defect moves on. *)
Lemma validate_features_ok (i : nat) (f : json) (rest : list json) :
  feature_ok f ->
  validate_features i (f :: rest) = validate_features (S i) rest.
Proof.
  intros (fields & g & -> & Hty & Hgeo). simpl.
  apply ne_str_false in Hty. rewrite Hty.
  unfold dict_has. now rewrite Hgeo.
Qed.

(** One turn of the loop on a defective feature returns its message. *)
Lemma validate_features_defect (i : nat) (f : json) (rest : list json) :
  ~ feature_ok f ->
  validate_features i (f :: rest) = Some (feature_defect i f).
Proof.
  intros Hbad. destruct f as [| | | | | |fields]; try reflexivity.
  simpl. destruct (ne_str (dict_get "type" fields) "Feature") eqn:Hty.
  - apply ne_str_true in Hty.
    destruct (dict_get "type" fields) as [[| | | |s| |]|]; try reflexivity.
    destruct (String.eqb_spec s "Feature") as [->|Hne]; [congruence|].
    destruct (String.eqb_spec s "Feature"); [congruence|].
    unfold feature_defect.
    assert (Hs : s <> "Feature") by assumption.
    clear - Hs.
    destruct s as [|a s]; [reflexivity|].
    repeat (match goal with
            | |- context [match ?x with EmptyString => _ | String _ _ => _ end] =>
                destruct x; try reflexivity
            | |- context [match ?x with Ascii _ _ _ _ _ _ _ _ => _ end] =>
                destruct x
            | |- context [if ?b then _ else _] => destruct b; try reflexivity
            end); try reflexivity; congruence.
  - apply ne_str_false in Hty. rewrite Hty.
    destruct (dict_has "geometry" fields) eqn:Hgeo; simpl.
    + exfalso. apply Hbad. unfold dict_has in Hgeo.
      destruct (dict_get "geometry" fields) as [g|] eqn:Hg; [|discriminate].
      now exists fields, g.
    + reflexivity.
Qed.

Lemma feature_ok_dec (f : json) : feature_ok f \/ ~ feature_ok f.
Proof.
  destruct f as [| | | | | |fields];
    try (right; intros (? & ? & [=] & _); fail).
  destruct (ne_str (dict_get "type" fields) "Feature") eqn:Hty.
  - right. intros (? & ? & [= <-] & Hty' & _).
    apply ne_str_true in Hty. contradiction.
  - apply ne_str_false in Hty.
    destruct (dict_get "geometry" fields) as [g|] eqn:Hgeo.
    + left. now exists fields, g.
    + right. intros (? & ? & [= <-] & _ & Hgeo'). congruence.
Qed.

(** The loop passes over a prefix of features without defect, counting
    them. *)
Lemma validate_features_prefix (pre rest : list json) (i : nat) :
  Forall feature_ok pre ->
  validate_features i (pre ++ rest)%list =
  validate_features (i + List.length pre) rest.
Proof.
  intros Hpre. revert i.
  induction Hpre as [|f pre Hf _ IH]; intros i; simpl app.
  - simpl. now rewrite Nat.add_0_r.
  - rewrite validate_features_ok by assumption.
    rewrite IH. simpl. f_equal. lia.
Qed.

Lemma validate_features_None (fs : list json) (i : nat) :
  validate_features i fs = None <-> Forall feature_ok fs.
Proof.
  revert i. induction fs as [|f fs IH]; intros i.
  - split; [constructor | reflexivity].
  - destruct (feature_ok_dec f) as [Hok|Hbad].
    + rewrite validate_features_ok by assumption. rewrite IH.
      split; [now constructor | now inversion 1].
    + rewrite validate_features_defect by assumption.
      split; [discriminate | inversion 1; contradiction].
Qed.

(** A rejection by the loop comes from the first defective feature. *)
Lemma validate_features_Some (fs : list json) (i : nat) (msg : string) :
  validate_features i fs = Some msg ->
  exists pre f post,
    fs = (pre ++ f :: post)%list /\ Forall feature_ok pre /\ ~ feature_ok f /\
    msg = feature_defect (i + List.length pre) f.
Proof.
  revert i. induction fs as [|f fs IH]; intros i; [discriminate|].
  destruct (feature_ok_dec f) as [Hok|Hbad].
  - rewrite validate_features_ok by assumption. intros H.
    destruct (IH _ H) as (pre & g & post & -> & Hpre & Hg & ->).
    exists (f :: pre), g, post. repeat split; auto.
    simpl. f_equal. lia.
  - rewrite validate_features_defect by assumption. intros [= <-].
    exists [], f, fs. repeat split; auto.
    simpl. now rewrite Nat.add_0_r.
Qed.

Lemma validate_collection (top : list (string * json)) (fs : list json) :
  dict_get "type" top = Some (JStr "FeatureCollection") ->
  dict_get "features" top = Some (JList fs) ->
  fs <> [] ->
  validate_geojson (JDict top) =
  match validate_features 0 fs with
  | Some msg => (false, msg)
  | None => (true, "Valid GeoJSON")
  end.
Proof.
  intros Hty Hfs Hne. unfold validate_geojson.
  apply ne_str_false in Hty. rewrite Hty, Hfs.
  destruct fs; [contradiction | reflexivity].
Qed.

(** A defective element makes the document fail, whatever else holds. *)
Lemma defective_element_rejected (top : list (string * json)) (fs : list json) (f : json) :
  dict_get "features" top = Some (JList fs) ->
  In f fs -> ~ feature_ok f ->
  fst (validate_geojson (JDict top)) = false.
Proof.
  intros Hfs Hin Hbad. unfold validate_geojson.
  destruct (ne_str (dict_get "type" top) "FeatureCollection"); [reflexivity|].
  rewrite Hfs. destruct fs as [|f0 fs0] eqn:E; [reflexivity|]. rewrite <- E in *.
  destruct (validate_features 0 fs) eqn:Hv; [reflexivity|].
  apply validate_features_None in Hv.
  rewrite Forall_forall in Hv. exfalso. apply Hbad, Hv.
  now apply list_elem_of_In.
Qed.

(** C3: the validator fails exactly on the listed violations; it succeeds on
    every FeatureCollection with a non-empty list of features that each are
    an object of type "Feature" with a geometry key, whatever the geometry's
    value (null included); and when a feature is the first defective one,
    validation stops there and the message carries that feature's index. *)
Theorem validate_geojson_spec (d : json) :
  (fst (validate_geojson d) = false <-> violation d) /\
  (forall top fs,
     d = JDict top ->
     dict_get "type" top = Some (JStr "FeatureCollection") ->
     dict_get "features" top = Some (JList fs) ->
     fs <> [] -> Forall feature_ok fs ->
     validate_geojson d = (true, "Valid GeoJSON")) /\
  (forall top pre f post,
     d = JDict top ->
     dict_get "type" top = Some (JStr "FeatureCollection") ->
     dict_get "features" top = Some (JList (pre ++ f :: post)%list) ->
     Forall feature_ok pre -> ~ feature_ok f ->
     validate_geojson d = (false, feature_defect (List.length pre) f)).
Proof.
  split; [split|split].
  - (* a failure is one of the violations *)
    intros Hfail. destruct d as [| | | | | |top];
      try (apply not_an_object; intros [? [=]]; fail).
    unfold validate_geojson in Hfail.
    destruct (ne_str (dict_get "type" top) "FeatureCollection") eqn:Hty.
    { apply not_a_collection. now apply ne_str_true. }
    destruct (dict_get "features" top) as [v|] eqn:Hfs;
      [|now apply features_absent].
    destruct v as [| | | | |fs|];
      try (eapply features_not_a_list; [eassumption | intros [? [=]]]; fail).
    destruct fs as [|f0 fs0] eqn:E; [now apply features_empty|]. rewrite <- E in *.
    destruct (validate_features 0 fs) as [msg|] eqn:Hv; [|discriminate].
    apply validate_features_Some in Hv.
    destruct Hv as (pre & f & post & Hsplit & _ & Hbad & _).
    assert (Hin : In f fs) by (rewrite Hsplit; apply in_elt).
    destruct f as [| | | | | |fields];
      try (eapply element_not_an_object; [eassumption | exact Hin | intros [? [=]]]; fail).
    destruct (ne_str (dict_get "type" fields) "Feature") eqn:Hfty.
    { eapply element_not_a_feature; [eassumption | exact Hin |].
      now apply ne_str_true. }
    apply ne_str_false in Hfty.
    eapply element_without_geometry; [eassumption | exact Hin |].
    destruct (dict_get "geometry" fields) as [g|] eqn:Hgeo; [|reflexivity].
    exfalso. apply Hbad. now exists fields, g.
  - (* every violation is a failure *)
    intros Hv. destruct Hv as
      [d Hno | top Hty | top Habs | top v Hfs Hnl | top Hfs
       | top fs f Hfs Hin Hno | top fs fields Hfs Hin Hty
       | top fs fields Hfs Hin Hgeo].
    + destruct d; try reflexivity. exfalso. apply Hno. now eexists.
    + apply ne_str_true in Hty. simpl. now rewrite Hty.
    + simpl. destruct (ne_str _ _); [reflexivity|]. now rewrite Habs.
    + simpl. destruct (ne_str _ _); [reflexivity|]. rewrite Hfs.
      destruct v; try reflexivity. exfalso. apply Hnl. now eexists.
    + simpl. destruct (ne_str _ _); [reflexivity|]. now rewrite Hfs.
    + eapply defective_element_rejected; [eassumption | exact Hin |].
      intros (? & ? & -> & _). apply Hno. now eexists.
    + eapply defective_element_rejected; [eassumption | exact Hin |].
      intros (? & ? & [= <-] & Hty' & _). contradiction.
    + eapply defective_element_rejected; [eassumption | exact Hin |].
      intros (? & ? & [= <-] & _ & Hgeo'). congruence.
  - (* success on well-formed collections *)
    intros top fs -> Hty Hfs Hne Hall.
    rewrite (validate_collection top fs) by assumption.
    apply (validate_features_None fs 0) in Hall. now rewrite Hall.
  - (* the first defective feature is the one reported *)
    intros top pre f post -> Hty Hfs Hpre Hbad.
    rewrite (validate_collection top _ Hty Hfs) by (now destruct pre).
    rewrite validate_features_prefix by assumption.
    now rewrite validate_features_defect by assumption.
Qed.

Lemma validate_geojson_spec_witness :
  let null_feature := JDict [("type", JStr "Feature"); ("geometry", JNull)] in
  let bare_feature := JDict [("type", JStr "Feature"); ("properties", JNull)] in
  validate_geojson (Scenario.collection [null_feature; Scenario.feature 1 2 "x"]) =
    (true, "Valid GeoJSON") /\
  validate_geojson (Scenario.collection [null_feature; bare_feature; JInt 3]) =
    (false, "Feature 1 missing geometry") /\
  violation (Scenario.collection [null_feature; bare_feature; JInt 3]).
Proof.
  intros null_feature bare_feature.
  assert (Hnull : feature_ok null_feature).
  { exists [("type", JStr "Feature"); ("geometry", JNull)], JNull.
    repeat split; reflexivity. }
  split; [|split].
  - apply (proj1 (proj2 (validate_geojson_spec
                           (Scenario.collection [null_feature; Scenario.feature 1 2 "x"])))
             _ [null_feature; Scenario.feature 1 2 "x"] eq_refl);
      [reflexivity | reflexivity | discriminate |].
    repeat constructor; [exact Hnull|].
    eexists _, _. repeat split; reflexivity.
  - apply (proj2 (proj2 (validate_geojson_spec
                           (Scenario.collection [null_feature; bare_feature; JInt 3])))
             _ [null_feature] bare_feature [JInt 3] eq_refl);
      [reflexivity | reflexivity | repeat constructor; exact Hnull |].
    intros (fields & g & [= <-] & _ & Hgeo). discriminate Hgeo.
  - apply (proj1 (validate_geojson_spec
                    (Scenario.collection [null_feature; bare_feature; JInt 3]))).
    reflexivity.
Defined.

(** ** The worker *)

Section WorkerFacts.
Context `{P : Platform}.

Ltac unfold_py :=
  unfold bind, try_except, ret, raise, lift, get, modify, logger, loads,
    s3_get_object, gpd_read_file, utcnow, uuid4, get_secret_value,
    ensure_postgis, to_postgis, getitem in *.

(** With an engine cached, no service is contacted. *)
Lemma get_db_connection_cached (w : World) (engine : string) :
  db_engine w = Some engine -> get_db_connection w = (inr engine, w).
Proof.
  intros H. unfold get_db_connection. unfold_py. now rewrite H.
Qed.

(** Establishing the connection never touches the tables, the object store,
    the clock or the id source, and on return the engine is cached. *)
Lemma get_db_connection_frame (w w' : World) (r : exn + string) :
  get_db_connection w = (r, w') ->
  tables w' = tables w /\ s3_reads w' = s3_reads w /\
  clock_reads w' = clock_reads w /\ uuid_draws w' = uuid_draws w /\
  (forall engine, r = inr engine -> db_engine w' = Some engine).
Proof.
  unfold get_db_connection. unfold_py.
  destruct (db_engine w) as [cached|] eqn:Hc.
  { intros [= <- <-]. repeat split; auto. now intros ? [= <-]. }
  assert (Hraise : forall (e : exn) (w0 : World),
    tables w0 = tables w -> s3_reads w0 = s3_reads w ->
    clock_reads w0 = clock_reads w -> uuid_draws w0 = uuid_draws w ->
    (inl e, w0) = (r, w') ->
    tables w' = tables w /\ s3_reads w' = s3_reads w /\
    clock_reads w' = clock_reads w /\ uuid_draws w' = uuid_draws w /\
    (forall engine, r = inr engine -> db_engine w' = Some engine)).
  { intros e w0 ? ? ? ? [= <- <-]. repeat split; auto. discriminate. }
  destruct (get_secret_value_at (secret_reads w)) as [e|text]; simpl;
    [now apply Hraise|].
  destruct (json_loads text) as [msg|secret]; simpl;
    [now apply Hraise|].
  destruct secret as [| | | | | |secret]; simpl;
    try (now apply Hraise).
  destruct (dict_get "username" secret); simpl; [|now apply Hraise].
  destruct (dict_get "password" secret); simpl; [|now apply Hraise].
  destruct (dict_get "host" secret); simpl; [|now apply Hraise].
  destruct (dict_get "port" secret); simpl; [|now apply Hraise].
  destruct (dict_get "dbname" secret); simpl; [|now apply Hraise].
  destruct (create_engine _) as [e|engine]; simpl;
    [now apply Hraise|].
  destruct (db_connect_fault_at (db_ops w)) as [e|]; simpl;
    [now apply Hraise|].
  intros [= <- <-]. simpl. repeat split; auto. now intros ? [= <-].
Qed.


(** The worker up to the load: once the source has passed validation and
    has been read again, the outcome is that of connecting and writing. *)
Lemma process_at_load (bucket key : string) (w : World) (rows : list row) :
  reaches_load bucket key w rows ->
  let gdf := stamp key (utcnow_at (clock_reads w)) (uuid4_at (uuid_draws w)) rows in
  let failed (e : exn) (w' : World) :=
    (inr (false, failure_message e),
     with_log (List.app (log w') [(ERROR, failure_message e)]) w') in
  process_geojson_file bucket key w =
  match get_db_connection (before_load bucket key w) with
  | (inl e, w1) => failed e w1
  | (inr engine, w1) =>
      match to_postgis gdf (table_name key) engine w1 with
      | (inl e, w2) => failed e w2
      | (inr _, w2) =>
          (inr (true, "Processed " ++ PyStr.of_nat (List.length rows) ++ " features"),
           with_log
             (List.app (log w2)
                [(INFO, "Successfully processed " ++ PyStr.of_nat (List.length rows) ++
                        " features into table '" ++ table_name key ++ "'")]) w2)
      end
  end.
Proof.
  intros (body1 & text & doc & body2 & H1 & Hdec & Hjson & Hval & H2 & Hparse).
  intros gdf failed.
  unfold process_geojson_file.
  unfold bind at 1. unfold logger at 1, modify at 1. unfold try_except.
  unfold bind at 1. unfold s3_get_object at 1. cbn [s3_reads with_log].
  rewrite H1.
  unfold bind at 1. rewrite Hdec. cbn [lift]. unfold ret at 1.
  unfold bind at 1. unfold loads. rewrite Hjson. unfold ret at 1.
  destruct (validate_geojson doc) as [is_valid message]. simpl in Hval. subst is_valid.
  cbn [negb].
  unfold bind at 1. unfold gpd_read_file. unfold bind at 1.
  unfold s3_get_object at 1. cbn [s3_reads with_s3_reads]. rewrite H2, Hparse.
  cbn [lift]. unfold ret at 1.
  unfold bind at 1, utcnow at 1.
  unfold bind at 1, uuid4 at 1.
  unfold bind at 1.
  change (with_uuid_draws _ _) with (before_load bucket key w).
  cbn [clock_reads uuid_draws with_s3_reads with_log with_clock_reads].
  fold (stamp key (utcnow_at (clock_reads w)) (uuid4_at (uuid_draws w)) rows).
  fold gdf.
  destruct (get_db_connection (before_load bucket key w)) as [[e|engine] w1].
  - unfold failed, failure_message. destruct (exn_kind e); reflexivity.
  - unfold bind at 1.
    destruct (to_postgis gdf (table_name key) engine w1) as [[e|[]] w2].
    + unfold failed, failure_message. destruct (exn_kind e); reflexivity.
    + unfold bind, logger, modify, ret. subst gdf. unfold stamp, set_column.
      rewrite !length_fmap. reflexivity.
Qed.

Lemma reaches_load_split (bucket key : string) (w : World) (rows : list row) :
  reaches_load bucket key w rows <->
  passes_validation bucket key w /\ second_read bucket key w = inr rows.
Proof.
  unfold reaches_load, passes_validation, second_read. split.
  - intros (b1 & t & d & b2 & Ha & Hb & Hc & Hd & Hread & Hrows).
    rewrite Hread. eauto 10.
  - intros [(b1 & t & d & Ha & Hb & Hc & Hd) Hread].
    destruct (s3_get_object_at (S (s3_reads w)) bucket key) as [e|b2] eqn:E;
      [discriminate|].
    exists b1, t, d, b2. auto 10.
Qed.

(** After validation, a failure of the reader is caught at the worker's
    boundary. *)
Lemma process_read_failure (bucket key : string) (w : World) (e : exn) :
  passes_validation bucket key w ->
  second_read bucket key w = inl e ->
  fst (process_geojson_file bucket key w) = inr (false, failure_message e).
Proof.
  intros (body1 & text & doc & H1 & Hdec & Hjson & Hval) Hread.
  unfold second_read in Hread.
  unfold process_geojson_file.
  unfold bind at 1. unfold logger at 1, modify at 1. unfold try_except.
  unfold bind at 1. unfold s3_get_object at 1. cbn [s3_reads with_log].
  rewrite H1.
  unfold bind at 1. rewrite Hdec. cbn [lift]. unfold ret at 1.
  unfold bind at 1. unfold loads. rewrite Hjson. unfold ret at 1.
  destruct (validate_geojson doc) as [is_valid message]. simpl in Hval. subst is_valid.
  cbn [negb].
  unfold bind at 1. unfold gpd_read_file. unfold bind at 1.
  unfold s3_get_object at 1. cbn [s3_reads with_s3_reads].
  destruct (s3_get_object_at (S (s3_reads w)) bucket key) as [e'|body2].
  - injection Hread as ->. unfold failure_message. destruct (exn_kind e); reflexivity.
  - rewrite Hread. cbn [lift]. unfold raise at 1.
    unfold failure_message. destruct (exn_kind e); reflexivity.
Qed.

(** Either the worker reaches the load, or it has already returned a
    failure without drawing an id and without touching the database. *)
Lemma process_before_load (bucket key : string) (w : World) :
  (exists rows, reaches_load bucket key w rows) \/
  (exists msg w',
     process_geojson_file bucket key w = (inr (false, msg), w') /\
     tables w' = tables w /\ uuid_draws w' = uuid_draws w /\
     db_ops w' = db_ops w /\ db_engine w' = db_engine w).
Proof.
  assert (Hcaught : forall (e : exn) (w0 : World),
    tables w0 = tables w -> uuid_draws w0 = uuid_draws w ->
    db_ops w0 = db_ops w -> db_engine w0 = db_engine w ->
    exists msg w',
      match exn_kind e with
      | JSONDecodeError =>
          bind (logger ERROR ("Invalid JSON format: " ++ exn_text e))
            (fun _ => ret (false, "Invalid JSON format: " ++ exn_text e))
      | _ =>
          bind (logger ERROR ("Error processing file: " ++ exn_text e))
            (fun _ => ret (false, "Error processing file: " ++ exn_text e))
      end w0 = (inr (false, msg), w') /\
      tables w' = tables w /\ uuid_draws w' = uuid_draws w /\
      db_ops w' = db_ops w /\ db_engine w' = db_engine w).
  { intros e w0 ? ? ? ?. destruct (exn_kind e); eexists _, _;
      (split; [reflexivity | simpl; auto]). }
  unfold reaches_load, process_geojson_file.
  unfold bind at 1. unfold logger at 1, modify at 1. unfold try_except.
  unfold bind at 1. unfold s3_get_object at 1. cbn [s3_reads with_log].
  destruct (s3_get_object_at (s3_reads w) bucket key) as [e|body1] eqn:H1;
    [right; now apply Hcaught|].
  unfold bind at 1.
  destruct (decode_utf8 body1) as [e|text] eqn:Hdec; cbn [lift];
    [right; now apply Hcaught|].
  unfold ret at 1. unfold bind at 1. unfold loads.
  destruct (json_loads text) as [m|doc] eqn:Hjson;
    [right; now apply (Hcaught (Exn JSONDecodeError m))|].
  unfold ret at 1.
  destruct (validate_geojson doc) as [is_valid message] eqn:Hval.
  destruct is_valid; cbn [negb];
    [|right; eexists _, _; split; [reflexivity | simpl; auto]].
  unfold bind at 1. unfold gpd_read_file. unfold bind at 1.
  unfold s3_get_object at 1. cbn [s3_reads with_s3_reads].
  destruct (s3_get_object_at (S (s3_reads w)) bucket key) as [e|body2] eqn:H2;
    [right; now apply Hcaught|].
  destruct (gpd_parse body2) as [e|rows] eqn:Hparse; cbn [lift];
    [right; now apply Hcaught|].
  left. exists rows, body1, text, doc, body2. rewrite Hval. auto 10.
Qed.


(** A write either raises and leaves the tables alone, or replaces the
    table. *)
Lemma to_postgis_cases (gdf : list row) (name engine : string) (w : World) :
  (exists e w', to_postgis gdf name engine w = (inl e, w') /\ tables w' = tables w /\
                uuid_draws w' = uuid_draws w /\ s3_reads w' = s3_reads w) \/
  (exists w', to_postgis gdf name engine w = (inr tt, w') /\
              tables w' = <[name := gdf]> (tables w) /\
              uuid_draws w' = uuid_draws w /\ s3_reads w' = s3_reads w).
Proof.
  unfold to_postgis.
  destruct (db_connect_fault_at (db_ops w)) as [e|];
    [left; eexists _, _; split; [reflexivity | simpl; auto]|].
  destruct (db_write_fault_at (db_ops w) name gdf) as [e|];
    [left; eexists _, _; split; [reflexivity | simpl; auto]|].
  right. eexists. split; [reflexivity | simpl; auto].
Qed.


(** The worker never raises: every exception is turned into a failure
    result at its boundary. *)
Lemma process_geojson_file_returns (bucket key : string) (w : World) :
  exists ok msg w', process_geojson_file bucket key w = (inr (ok, msg), w').
Proof.
  destruct (process_before_load bucket key w)
    as [(rows & Hreach)|(msg & w' & Hrun & _)]; [|eauto].
  rewrite (process_at_load bucket key w rows Hreach). cbv zeta.
  destruct (get_db_connection _) as [[e|engine] w1]; [eauto|].
  destruct (to_postgis _ _ _ _) as [[e|[]] w2]; eauto.
Qed.

End WorkerFacts.

Section WorkerTheorems.
Context `{P : Platform}.


(** C5: when the object parses into a FeatureCollection whose features
    list is empty, process_geojson_file returns the failure "No features in
    collection" and the destination store is not touched: no table changes
    and no database operation is made. *)
Theorem process_empty_collection (bucket key body text : string)
    (top : list (string * json)) (w : World) :
  s3_get_object_at (s3_reads w) bucket key = inr body ->
  decode_utf8 body = inr text ->
  json_loads text = inr (JDict top) ->
  dict_get "type" top = Some (JStr "FeatureCollection") ->
  dict_get "features" top = Some (JList []) ->
  exists w',
    process_geojson_file bucket key w = (inr (false, "No features in collection"), w') /\
    tables w' = tables w /\ db_ops w' = db_ops w /\ db_engine w' = db_engine w.
Proof.
  intros H1 Hdec Hjson Hty Hfs.
  destruct (process_before_load bucket key w)
    as [(rows & b1 & t & d & b2 & H1' & Hdec' & Hjson' & Hval & _)
       |(msg & w' & Hrun & Ht & _ & Hops & Heng)].
  - exfalso. rewrite H1 in H1'. injection H1' as <-.
    rewrite Hdec in Hdec'. injection Hdec' as <-.
    rewrite Hjson in Hjson'. injection Hjson' as <-.
    unfold validate_geojson in Hval. apply ne_str_false in Hty.
    rewrite Hty, Hfs in Hval. discriminate.
  - exists w'. repeat split; auto. rewrite Hrun. repeat f_equal.
    revert Hrun. unfold process_geojson_file.
    unfold bind at 1. unfold logger at 1, modify at 1. unfold try_except.
    unfold bind at 1. unfold s3_get_object at 1. cbn [s3_reads with_log].
    rewrite H1. unfold bind at 1. rewrite Hdec. cbn [lift]. unfold ret at 1.
    unfold bind at 1. unfold loads. rewrite Hjson. unfold ret at 1.
    unfold validate_geojson. apply ne_str_false in Hty. rewrite Hty, Hfs.
    cbn [negb]. unfold bind, logger, modify, ret. now intros [= <- _].
Qed.

(** C6 (as the code has it): when validation has passed and the load stage
    then fails with cause [e], process_geojson_file returns a failure whose
    message is "Error processing file: <cause>" ("Invalid JSON format:
    <cause>" when the cause is a JSON decode error, which reading the
    database secret can raise); the message carries the cause and does not
    name the load stage. *)
Theorem process_load_failure (bucket key : string) (e : exn) (w : World) :
  passes_validation bucket key w ->
  load_fails_with bucket key w e ->
  fst (process_geojson_file bucket key w) = inr (false, failure_message e) /\
  (exn_kind e <> JSONDecodeError ->
   failure_message e = "Error processing file: " ++ exn_text e) /\
  (exn_kind e = JSONDecodeError ->
   failure_message e = "Invalid JSON format: " ++ exn_text e).
Proof.
  intros Hvalid Hfail. split; [|split].
  - destruct Hfail as [Hread|(rows & Hread & Hfail)].
    { now apply process_read_failure. }
    assert (Hreach : reaches_load bucket key w rows)
      by (apply reaches_load_split; auto).
    rewrite (process_at_load bucket key w rows Hreach). cbv zeta.
    destruct Hfail as [(w1 & Hconn)|(engine & w1 & w2 & Hconn & Hwrite)].
    + now rewrite Hconn.
    + now rewrite Hconn, Hwrite.
  - unfold failure_message. destruct (exn_kind e); congruence.
  - unfold failure_message. now intros ->.
Qed.


(** C10: a call that succeeds has read the object exactly twice.  The
    first read is the one that is decoded, parsed and validated; the second
    read, made by the GeoPandas reader, is the one whose rows are written and
    counted.  Nothing relates the two contents: what is loaded is the second
    read, whether or not it equals the validated first one. *)
Theorem process_reads_twice (bucket key msg : string) (w w' : World) :
  process_geojson_file bucket key w = (inr (true, msg), w') ->
  s3_reads w' = S (S (s3_reads w)) /\
  exists body1 text doc body2 rows,
    s3_get_object_at (s3_reads w) bucket key = inr body1 /\
    decode_utf8 body1 = inr text /\
    json_loads text = inr doc /\
    fst (validate_geojson doc) = true /\
    s3_get_object_at (S (s3_reads w)) bucket key = inr body2 /\
    gpd_parse body2 = inr rows /\
    msg = "Processed " ++ PyStr.of_nat (List.length rows) ++ " features" /\
    tables w' !! table_name key =
      Some (stamp key (utcnow_at (clock_reads w)) (uuid4_at (uuid_draws w)) rows).
Proof.
  intros Hrun.
  destruct (process_before_load bucket key w)
    as [(rows & Hreach)|(m & w0 & Hrun' & _)];
    [|rewrite Hrun in Hrun'; discriminate].
  pose proof (process_at_load bucket key w rows Hreach) as Hload.
  cbv zeta in Hload. rewrite Hrun in Hload.
  destruct (get_db_connection (before_load bucket key w)) as [[e|engine] w1] eqn:Hconn;
    [discriminate|].
  destruct (get_db_connection_frame _ _ _ Hconn) as (_ & Hs1 & _ & _ & _).
  destruct (to_postgis_cases
              (stamp key (utcnow_at (clock_reads w)) (uuid4_at (uuid_draws w)) rows)
              (table_name key) engine w1)
    as [(e & w2 & Hwrite & _)|(w2 & Hwrite & Ht2 & _ & Hs2)];
    rewrite Hwrite in Hload; [discriminate|].
  injection Hload as -> ->.
  split.
  - simpl. now rewrite Hs2, Hs1.
  - destruct Hreach as (body1 & text & doc & body2 & ? & ? & ? & ? & ? & ?).
    exists body1, text, doc, body2, rows. repeat split; auto.
    simpl. rewrite Ht2. apply lookup_insert_eq.
Qed.

End WorkerTheorems.

(** *** The worker on the scenarios *)


Lemma scenario_credentials_resolve (db_down : bool) :
  @credentials_resolve (Scenario.platform db_down).
Proof.
  exists Scenario.secret_text,
    [("username", JStr "gis"); ("password", JStr "pw");
     ("host", JStr "db.internal"); ("port", JInt 5432); ("dbname", JStr "geo")],
    (JStr "gis"), (JStr "pw"), (JStr "db.internal"), (JInt 5432), (JStr "geo"),
    "postgresql://gis:pw@db.internal:5432/geo".
  repeat split; reflexivity.
Qed.

Lemma scenario_reaches_load (db_down : bool) (w : World) :
  @reaches_load (Scenario.platform db_down) "uploads" "region/a.geojson" w
    [Scenario.gdf_row 1 2 "x"].
Proof.
  exists Scenario.body_one, Scenario.body_one, Scenario.doc_one, Scenario.body_one.
  repeat split; reflexivity.
Qed.



Lemma process_empty_collection_witness :
  exists w',
    @process_geojson_file (Scenario.platform false) "uploads" "region/empty.geojson"
      Scenario.fresh = (inr (false, "No features in collection"), w') /\
    tables w' = ∅ /\ db_ops w' = 0%nat /\ db_engine w' = None.
Proof.
  exact (@process_empty_collection (Scenario.platform false)
           "uploads" "region/empty.geojson" Scenario.body_empty Scenario.body_empty
           [("type", JStr "FeatureCollection"); ("features", JList [])]
           Scenario.fresh eq_refl eq_refl eq_refl eq_refl eq_refl).
Defined.

Lemma scenario_passes_validation (db_down : bool) (w : World) :
  @passes_validation (Scenario.platform db_down) "uploads" "region/a.geojson" w.
Proof.
  exists Scenario.body_one, Scenario.body_one, Scenario.doc_one.
  repeat split; reflexivity.
Qed.

Lemma scenario_load_fails :
  @load_fails_with (Scenario.platform true) "uploads" "region/a.geojson"
    Scenario.fresh Scenario.connection_refused.
Proof.
  right. exists [Scenario.gdf_row 1 2 "x"]. split; [reflexivity|].
  left. eexists. vm_compute. reflexivity.
Qed.

(** With the destination store unreachable, the valid file of scenario A
    passes validation, the load fails, and the message returned is not the
    "load error: <cause>" of the specification. *)
Lemma process_load_failure_counterexample :
  @passes_validation (Scenario.platform true) "uploads" "region/a.geojson"
    Scenario.fresh /\
  @load_fails_with (Scenario.platform true) "uploads" "region/a.geojson"
    Scenario.fresh Scenario.connection_refused /\
  fst (@process_geojson_file (Scenario.platform true) "uploads" "region/a.geojson"
         Scenario.fresh) =
    inr (false, "Error processing file: could not connect to server: Connection refused") /\
  fst (@process_geojson_file (Scenario.platform true) "uploads" "region/a.geojson"
         Scenario.fresh) <>
    inr (false, "load error: " ++ exn_text Scenario.connection_refused).
Proof.
  split; [apply scenario_passes_validation|].
  split; [apply scenario_load_fails|].
  split; [vm_compute; reflexivity | vm_compute; discriminate].
Qed.

Lemma process_load_failure_witness :
  fst (@process_geojson_file (Scenario.platform true) "uploads" "region/a.geojson"
         Scenario.fresh) =
    inr (false, "Error processing file: could not connect to server: Connection refused").
Proof.
  destruct (@process_load_failure (Scenario.platform true)
              "uploads" "region/a.geojson"
              Scenario.connection_refused Scenario.fresh
              (scenario_passes_validation true Scenario.fresh) scenario_load_fails)
    as (Hmsg & Hother & _).
  rewrite Hmsg, Hother by discriminate. reflexivity.
Defined.


(** The object is overwritten between the two reads: the document that is
    validated has one feature, the two rows that are loaded come from the
    second content. *)
Lemma process_reads_twice_witness :
  let P := Scenario.platform false in
  exists w' body1 body2 doc,
    @process_geojson_file P "uploads" "region/live.geojson" Scenario.fresh =
      (inr (true, "Processed 2 features"), w') /\
    s3_reads w' = 2%nat /\
    @s3_get_object_at P 0 "uploads" "region/live.geojson" = inr body1 /\
    @json_loads P body1 = inr doc /\ doc = Scenario.doc_one /\
    @s3_get_object_at P 1 "uploads" "region/live.geojson" = inr body2 /\
    body1 <> body2 /\
    tables w' !! "geojson_region_live_geojson" =
      Some (stamp "region/live.geojson" 1700000000 "uuid-0"
              [Scenario.gdf_row 1 2 "x"; Scenario.gdf_row 3 4 "y"]).
Proof.
  intros P.
  set (out := @process_geojson_file P "uploads" "region/live.geojson" Scenario.fresh).
  assert (Hrun : out = (inr (true, "Processed 2 features"), snd out))
    by (vm_compute; reflexivity).
  destruct (@process_reads_twice P "uploads" "region/live.geojson"
              "Processed 2 features" Scenario.fresh (snd out) Hrun)
    as (Hreads & body1 & text & doc & body2 & rows & H1 & Hdec & Hjson & _ & H2 & Hparse & _ & Ht).
  injection H1 as <-. injection Hdec as <-. injection H2 as <-.
  injection Hparse as <-. injection Hjson as <-.
  exists (snd out), Scenario.body_one, Scenario.body_two, Scenario.doc_one.
  split; [exact Hrun|]. split; [exact Hreads|].
  repeat (split; [reflexivity|]).
  split; [vm_compute; discriminate | exact Ht].
Defined.

(** ** The dispatcher *)

Section DispatcherFacts.
Context `{R : LambdaRuntime}.

(** One turn of the loop. *)
Lemma handler_loop_cons (record : s3_record) (rest : list s3_record) (c : Cloud) :
  handler_loop (record :: rest) c =
  let bucket := record_bucket record in
  let key := decoded_key record in
  let c0 := logged INFO ("Processing file: s3://" ++ bucket ++ "/" ++ key) c in
  if is_geojson_key key then
    match run_ecs_task bucket key c0 with
    | (inl e, c1) => (inl e, c1)
    | (inr _, c1) => handler_loop rest (logged INFO "ECS task started: Unknown" c1)
    end
  else handler_loop rest (logged INFO ("Skipping non-GeoJSON file: " ++ key) c0).
Proof.
  cbv zeta. unfold is_geojson_key, decoded_key. simpl handler_loop.
  unfold bind at 1. unfold lambda_logger at 1, modify at 1.
  destruct (PyStr.endswith _ _); cbn [negb].
  - unfold bind at 1. fold (logged INFO
      ("Processing file: s3://" ++ record_bucket record ++ "/" ++
       unquote_plus (record_key record)) c).
    destruct (run_ecs_task _ _ _) as [[e|response] c1]; reflexivity.
  - reflexivity.
Qed.

(** The loop over a batch in two parts: an exception in the first part ends
    the loop. *)
Lemma handler_loop_app (xs ys : list s3_record) (c : Cloud) :
  handler_loop (xs ++ ys)%list c =
  match handler_loop xs c with
  | (inl e, c') => (inl e, c')
  | (inr _, c') => handler_loop ys c'
  end.
Proof.
  revert c. induction xs as [|x xs IH]; intros c; [reflexivity|].
  rewrite <- app_comm_cons, !handler_loop_cons. cbv zeta.
  destruct (is_geojson_key _); [|apply IH].
  destruct (run_ecs_task _ _ _) as [[e|response] c1]; [reflexivity | apply IH].
Qed.

(** One launch calls [run_task] at most once, with the bucket and key it was
    given. *)
Lemma run_ecs_task_calls (bucket key : string) (c c' : Cloud)
    (r : exn + run_task_response) :
  run_ecs_task bucket key c = (r, c') ->
  ecs_calls c' = ecs_calls c \/
  exists config,
    ecs_calls c' = (ecs_calls c ++ [config])%list /\
    env_S3_BUCKET config = bucket /\ env_S3_KEY config = key.
Proof.
  unfold run_ecs_task, getenv.
  repeat (unfold bind at 1;
          destruct (environ !! _);
          [unfold ret at 1 | unfold raise; intros [= <- <-]; now left]).
  unfold bind at 1, run_task at 1.
  destruct (run_task_at _ _) as [e|response].
  { intros [= <- <-]. right. eexists. simpl. eauto. }
  destruct (failures response).
  - unfold bind, ret. destruct (tasks response);
      intros [= <- <-]; right; eexists; simpl; eauto.
  - unfold bind, lambda_logger, modify, raise. intros [= <- <-].
    right. eexists. simpl. eauto.
Qed.

(** When launches succeed, one launch calls [run_task] exactly once. *)
Lemma run_ecs_task_ok (bucket key : string) (c : Cloud) :
  launches_succeed ->
  exists response c' config,
    run_ecs_task bucket key c = (inr response, c') /\
    ecs_calls c' = (ecs_calls c ++ [config])%list /\
    env_S3_BUCKET config = bucket /\ env_S3_KEY config = key.
Proof.
  intros [(a & b & s & g & Ha & Hb & Hs & Hg) Hrun].
  unfold run_ecs_task, getenv. rewrite Ha, Hb, Hs, Hg.
  unfold bind at 1, ret at 1. unfold bind at 1, ret at 1.
  unfold bind at 1, ret at 1. unfold bind at 1, ret at 1.
  unfold bind at 1, run_task at 1.
  match goal with |- context [run_task_at ?h ?cfg] =>
    destruct (Hrun h cfg) as (response & -> & Hnone) end.
  rewrite Hnone. unfold bind, ret.
  destruct (tasks response); eexists _, _, _; (split; [reflexivity | simpl; eauto]).
Qed.

(** When launches succeed, the loop runs to its end and has launched, in
    order, exactly the keys that pass the extension filter. *)
Lemma handler_loop_ok (records : list s3_record) (c : Cloud) :
  launches_succeed ->
  exists c',
    handler_loop records c = (inr tt, c') /\
    launched_keys c' =
      (launched_keys c ++ filter (fun k => is_geojson_key k = true)
                            (decoded_key <$> records))%list.
Proof.
  intros Hok. revert c. induction records as [|record records IH]; intros c.
  { exists c. split; [reflexivity|]. simpl. now rewrite app_nil_r. }
  rewrite handler_loop_cons. cbv zeta.
  rewrite fmap_cons, filter_cons.
  destruct (is_geojson_key (decoded_key record)) eqn:Hgeo.
  - match goal with |- context [run_ecs_task ?b ?k ?c0] =>
      destruct (run_ecs_task_ok b k c0 Hok)
        as (response & c1 & config & -> & Hcalls & _ & Hkey)
    end.
    match goal with |- context [handler_loop records ?c0] =>
      destruct (IH c0) as (c' & -> & Hkeys) end.
    exists c'. split; [reflexivity|]. rewrite Hkeys.
    unfold launched_keys at 1. cbn [ecs_calls logged]. rewrite Hcalls.
    cbn [ecs_calls logged]. rewrite fmap_app. simpl. rewrite Hkey.
    now rewrite <- app_assoc.
  - match goal with |- context [handler_loop records ?c0] =>
      destruct (IH c0) as (c' & -> & Hkeys) end.
    exists c'. split; [reflexivity|]. rewrite Hkeys. reflexivity.
Qed.

End DispatcherFacts.

Section DispatcherTheorems.
Context `{R : LambdaRuntime}.

(** C1 (as the code has it): a launch that raises ends the batch.  When
    the notifications before [r] are handled without error and the launch for
    [r] raises [e], the handler answers with status 500 and the error's
    text, and no notification after [r] is attempted: the outcome is the one
    of the batch cut after [r].  The failing notification is one that passes
    the filter, and its launch has called run_task at most once. *)
Theorem handler_stops_at_launch_failure (before after : list s3_record)
    (r : s3_record) (aws_request_id : string) (c c1 c2 : Cloud) (e : exn) :
  handler_loop before c = (inr tt, c1) ->
  handler_loop [r] c1 = (inl e, c2) ->
  handler (before ++ r :: after)%list aws_request_id c =
    ({| statusCode := 500;
        body := [("error", exn_text e); ("timestamp", aws_request_id)] |},
     logged ERROR ("Error processing S3 event: " ++ exn_text e) c2) /\
  handler (before ++ r :: after)%list aws_request_id c =
    handler (before ++ [r])%list aws_request_id c /\
  is_geojson_key (decoded_key r) = true /\
  (ecs_calls c2 = ecs_calls c1 \/
   exists config,
     ecs_calls c2 = (ecs_calls c1 ++ [config])%list /\
     env_S3_KEY config = decoded_key r).
Proof.
  intros Hbefore Hr.
  assert (Hcut : forall rest,
            handler_loop (before ++ r :: rest)%list c = (inl e, c2)).
  { intros rest. rewrite handler_loop_app, Hbefore.
    change (r :: rest) with ([r] ++ rest)%list.
    now rewrite handler_loop_app, Hr. }
  split; [|split; [|split]].
  - unfold handler. now rewrite Hcut.
  - unfold handler. now rewrite !Hcut.
  - rewrite handler_loop_cons in Hr. cbv zeta in Hr.
    destruct (is_geojson_key (decoded_key r)); [reflexivity | discriminate].
  - rewrite handler_loop_cons in Hr. cbv zeta in Hr.
    destruct (is_geojson_key (decoded_key r)); [|discriminate].
    destruct (run_ecs_task _ _ _) as [[e'|response] c1'] eqn:Hrun; [|discriminate].
    injection Hr as -> ->.
    destruct (run_ecs_task_calls _ _ _ _ _ Hrun) as [Hsame|(config & Hcfg & _ & Hkey)].
    + left. exact Hsame.
    + right. exists config. split; [exact Hcfg | exact Hkey].
Qed.

(** C8 (as the code has it): when every launch succeeds, the handler
    answers with status 200 and a message that gives one number, the count
    of notifications received ("Successfully processed N files"); the runs
    launched are exactly those for the keys that end in ".geojson" once
    lower-cased, in order, but their number and the number skipped are not
    part of the report. *)
Theorem handler_report (records : list s3_record) (aws_request_id : string)
    (c : Cloud) :
  launches_succeed ->
  fst (handler records aws_request_id c) =
    {| statusCode := 200;
       body := [("message",
                 "Successfully processed " ++ PyStr.of_nat (List.length records) ++
                 " files");
                ("timestamp", aws_request_id)] |} /\
  launched_keys (snd (handler records aws_request_id c)) =
    (launched_keys c ++ filter (fun k => is_geojson_key k = true)
                          (decoded_key <$> records))%list.
Proof.
  intros Hok. destruct (handler_loop_ok records c Hok) as (c' & Hloop & Hkeys).
  unfold handler. rewrite Hloop. split; [reflexivity | exact Hkeys].
Qed.

End DispatcherTheorems.

(** *** The dispatcher on the scenarios *)

Lemma scenario_launches_succeed : @launches_succeed (Scenario.runtime false).
Proof.
  split.
  - exists "geo", "geojson-processor:1", "subnet-1,subnet-2", "sg-1".
    repeat split; reflexivity.
  - intros history config. eexists. split; reflexivity.
Qed.

(** In a batch of two qualifying keys whose first launch fails, the second
    key is never attempted. *)
Lemma handler_isolation_counterexample :
  let records := [Scenario.upload "full/a.geojson"; Scenario.upload "b.geojson"] in
  let outcome := @handler (Scenario.runtime true) records "req-1" Scenario.idle in
  statusCode (fst outcome) = 500%nat /\
  launched_keys (snd outcome) = ["full/a.geojson"] /\
  ~ @every_qualifying_key_attempted (Scenario.runtime true) records (snd outcome).
Proof.
  cbv zeta. split; [reflexivity | split; [reflexivity|]].
  intros Hall.
  specialize (Hall (Scenario.upload "b.geojson") (or_intror (or_introl eq_refl)) eq_refl).
  vm_compute in Hall. destruct Hall as [Heq|[]]. discriminate Heq.
Qed.

Lemma handler_stops_at_launch_failure_witness :
  let records := [Scenario.upload "a.geojson"; Scenario.upload "full/b.geojson";
                  Scenario.upload "c.geojson"] in
  let outcome := @handler (Scenario.runtime true) records "req-1" Scenario.idle in
  statusCode (fst outcome) = 500%nat /\
  launched_keys (snd outcome) = ["a.geojson"; "full/b.geojson"] /\
  outcome = @handler (Scenario.runtime true)
              [Scenario.upload "a.geojson"; Scenario.upload "full/b.geojson"]
              "req-1" Scenario.idle.
Proof.
  cbv zeta.
  set (c1 := snd (@handler_loop (Scenario.runtime true) [Scenario.upload "a.geojson"] Scenario.idle)).
  set (c2 := snd (@handler_loop (Scenario.runtime true) [Scenario.upload "full/b.geojson"] c1)).
  destruct (@handler_stops_at_launch_failure (Scenario.runtime true)
              [Scenario.upload "a.geojson"] [Scenario.upload "c.geojson"]
              (Scenario.upload "full/b.geojson") "req-1" Scenario.idle c1 c2
              (Exn OtherException
                 "ECS task failed to start: [{'arn': 'arn:aws:ecs:cluster/geo', 'reason': 'RESOURCE:MEMORY'}]")
              eq_refl eq_refl)
    as (Hout & Hcut & _ & _).
  cbn [app] in Hout, Hcut.
  split; [|split].
  - now rewrite Hout.
  - rewrite Hout. reflexivity.
  - exact Hcut.
Defined.

(** Two batches of three notifications, one with a [.txt] key and one
    without, get the same report although two runs are launched for the
    first and three for the second: the report tells neither the number
    dispatched nor the number skipped. *)
Lemma handler_report_counterexample :
  let mixed := [Scenario.upload "a.geojson"; Scenario.upload "b.txt";
                Scenario.upload "c.geojson"] in
  let plain := [Scenario.upload "a.geojson"; Scenario.upload "b.geojson";
                Scenario.upload "c.geojson"] in
  let run records := @handler (Scenario.runtime false) records "req-1" Scenario.idle in
  fst (run mixed) = fst (run plain) /\
  body (fst (run mixed)) =
    [("message", "Successfully processed 3 files"); ("timestamp", "req-1")] /\
  List.length (ecs_calls (snd (run mixed))) = 2%nat /\
  List.length (ecs_calls (snd (run plain))) = 3%nat.
Proof. cbv zeta. repeat split; reflexivity. Qed.


Lemma handler_report_witness :
  let records := [Scenario.upload "a.geojson"; Scenario.upload "b.txt";
                  Scenario.upload "c.GeoJSON"] in
  let outcome := @handler (Scenario.runtime false) records "req-1" Scenario.idle in
  fst outcome =
    {| statusCode := 200;
       body := [("message", "Successfully processed 3 files");
                ("timestamp", "req-1")] |} /\
  launched_keys (snd outcome) = ["a.geojson"; "c.GeoJSON"].
Proof.
  cbv zeta.
  destruct (@handler_report (Scenario.runtime false)
              [Scenario.upload "a.geojson"; Scenario.upload "b.txt";
               Scenario.upload "c.GeoJSON"] "req-1" Scenario.idle
              scenario_launches_succeed) as (Hreport & Hkeys).
  split; [exact Hreport | exact Hkeys].
Defined.

(** C7 (the code at the failing input): the handler launches a run for
    the key "logs/app.geojson" and reports success, although
    validate_geojson_key rejects that key as lying in a system folder; the
    handler applies the extension filter only and never consults the
    denylist. *)
Theorem handler_ignores_system_folders :
  let outcome := @handler (Scenario.runtime false)
                   [Scenario.upload "logs/app.geojson"] "req-1" Scenario.idle in
  validate_geojson_key "logs/app.geojson" = (false, "File in system folder: logs") /\
  statusCode (fst outcome) = 200%nat /\
  launched_keys (snd outcome) = ["logs/app.geojson"].
Proof. cbv zeta. repeat split; reflexivity. Qed.


(** * Further properties *)

(** ** Strings, continued *)

Lemma map_app_str (f : ascii -> ascii) (s t : string) :
  PyStr.map f (s ++ t) = PyStr.map f s ++ PyStr.map f t.
Proof. induction s as [|c s IH]; simpl; [reflexivity | now rewrite IH]. Qed.

Lemma lower_app (s t : string) :
  PyStr.lower (s ++ t) = PyStr.lower s ++ PyStr.lower t.
Proof. apply map_app_str. Qed.

Lemma lower_char_idempotent (c : ascii) :
  PyStr.lower_char (PyStr.lower_char c) = PyStr.lower_char c.
Proof. destruct c as [[] [] [] [] [] [] [] []]; reflexivity. Qed.

Lemma lower_idempotent (s : string) :
  PyStr.lower (PyStr.lower s) = PyStr.lower s.
Proof.
  unfold PyStr.lower. rewrite map_map_str. apply map_ext_str.
  apply lower_char_idempotent.
Qed.

Lemma take_app_exact (s t : string) (n : nat) :
  PyStr.take (String.length s + n) (s ++ t) = s ++ PyStr.take n t.
Proof. induction s as [|c s IH]; simpl; [reflexivity | now rewrite IH]. Qed.

Lemma take_take_str (n m : nat) (s : string) :
  PyStr.take n (PyStr.take m s) = PyStr.take (Nat.min n m) s.
Proof.
  revert m s. induction n as [|n IH]; intros [|m] [|c s]; simpl; try reflexivity.
  now rewrite IH.
Qed.

Lemma take_app_short (s t : string) (n : nat) :
  (n <= String.length s)%nat -> PyStr.take n (s ++ t) = PyStr.take n s.
Proof.
  revert s. induction n as [|n IH]; intros [|c s] H; simpl in *; try reflexivity; try lia.
  rewrite IH by lia. reflexivity.
Qed.

Lemma append_inv_head (p s t : string) : p ++ s = p ++ t -> s = t.
Proof. induction p as [|c p IH]; simpl; [trivial | intros [= H]; auto]. Qed.

(** ** Table names, continued *)

(** The table name is the prefix followed by the first 55 characters of the
    normalized key. *)
Lemma table_name_normalized (key : string) :
  table_name key = "geojson_" ++ PyStr.take 55 (normalized_key key).
Proof.
  unfold table_name, normalized_key. rewrite three_replaces_one_pass.
  rewrite lower_app.
  change 63%nat with (String.length (PyStr.lower "geojson_") + 55)%nat.
  rewrite take_app_exact. reflexivity.
Qed.

Lemma normalized_lower (key : string) :
  normalized_key (PyStr.lower key) = normalized_key key.
Proof.
  unfold normalized_key, PyStr.lower. rewrite !map_map_str. apply map_ext_str.
  intros c. destruct c as [[] [] [] [] [] [] [] []]; reflexivity.
Qed.

Lemma normalized_app (s t : string) :
  normalized_key (s ++ t) = normalized_key s ++ normalized_key t.
Proof. unfold normalized_key. now rewrite map_app_str, lower_app. Qed.

Lemma normalized_length (s : string) :
  String.length (normalized_key s) = String.length s.
Proof. unfold normalized_key, PyStr.lower. now rewrite !map_length_str. Qed.

(** X1: two keys get the same table exactly when their normalized forms
    (separators replaced, then lower-cased) agree on the first 55
    characters.  So keys that differ only in which of '/', '.', '-', '_'
    stands at a position share one table; and for keys of ASCII characters,
    keys that differ only in letter case, or only after their 55th
    character, share one table. *)
Theorem table_name_collisions (k1 k2 : string) :
  (table_name k1 = table_name k2 <->
   PyStr.take 55 (normalized_key k1) = PyStr.take 55 (normalized_key k2)) /\
  (forall sep : ascii,
     is_separator sep = true \/ sep = "_"%char ->
     table_name (PyStr.replace "/" sep k1) = table_name k1) /\
  (all_chars is_ascii_char k1 = true ->
   table_name (PyStr.lower k1) = table_name k1) /\
  (forall tail1 tail2 : string,
     all_chars is_ascii_char k1 = true ->
     (55 <= String.length k1)%nat ->
     table_name (k1 ++ tail1) = table_name (k1 ++ tail2)).
Proof.
  split; [|split; [|split]].
  - rewrite !table_name_normalized. split.
    + apply append_inv_head.
    + now intros ->.
  - intros sep Hsep. rewrite !table_name_normalized. f_equal. f_equal.
    unfold normalized_key, PyStr.replace. rewrite map_map_str.
    f_equal. apply map_ext_str. intros c.
    destruct (Ascii.eqb_spec c "/") as [->|Hc].
    + destruct Hsep as [-> | ->]; reflexivity.
    + reflexivity.
  - intros _. now rewrite !table_name_normalized, normalized_lower.
  - intros tail1 tail2 _ Hlen. rewrite !table_name_normalized, !normalized_app.
    rewrite !take_app_short by (rewrite normalized_length; exact Hlen).
    reflexivity.
Qed.

Lemma table_name_collisions_witness :
  table_name "Region/A.geojson" = table_name "region_a-geojson" /\
  table_name "Region/A.geojson" = table_name "region/a.geojson" /\
  table_name
    "surveys/2024/north-east/district-0042/parcels/lot-17/batch-a.geojson" =
  table_name
    "surveys/2024/north-east/district-0042/parcels/lot-17/batch-b.geojson".
Proof.
  split; [|split].
  - apply (proj1 (table_name_collisions "Region/A.geojson" "region_a-geojson")).
    reflexivity.
  - symmetry.
    exact (proj1 (proj2 (proj2 (table_name_collisions "Region/A.geojson" "")))
             eq_refl).
  - exact (proj2 (proj2 (proj2 (table_name_collisions
             "surveys/2024/north-east/district-0042/parcels/lot-17/batch-" "")))
             "a.geojson" "b.geojson" eq_refl ltac:(vm_compute; lia)).
Defined.

Lemma all_chars_app (p : ascii -> bool) (s t : string) :
  all_chars p (s ++ t) = all_chars p s && all_chars p t.
Proof.
  induction s as [|c s IH]; simpl; [reflexivity|].
  now rewrite IH, andb_assoc.
Qed.

Lemma all_chars_take (p : ascii -> bool) (n : nat) (s : string) :
  all_chars p s = true -> all_chars p (PyStr.take n s) = true.
Proof.
  revert s. induction n as [|n IH]; intros [|c s]; simpl; try reflexivity.
  intros H. apply andb_true_iff in H as [Hc Hs]. now rewrite Hc, IH.
Qed.

Lemma all_chars_map (p : ascii -> bool) (f : ascii -> ascii) (s : string) :
  (forall c, p (f c) = true) -> all_chars p (PyStr.map f s) = true.
Proof.
  intros H. induction s as [|c s IH]; simpl; [reflexivity|].
  now rewrite H, IH.
Qed.

(** X2: whatever the key, the table name starts with "geojson_", has
    between 8 and 63 characters, and holds no '/', '.' or '-' and no
    character that lower-casing would change. *)
Theorem table_name_identifier (key : string) :
  PyStr.take 8 (table_name key) = "geojson_" /\
  (8 <= String.length (table_name key) <= 63)%nat /\
  all_chars identifier_char (table_name key) = true.
Proof.
  rewrite table_name_normalized. split; [reflexivity | split].
  - rewrite append_length_str, take_length_str. simpl String.length. lia.
  - rewrite all_chars_app. apply andb_true_iff. split; [reflexivity|].
    apply all_chars_take. unfold normalized_key, PyStr.lower.
    rewrite map_map_str. apply all_chars_map.
    intros c. destruct c as [[] [] [] [] [] [] [] []]; reflexivity.
Qed.

(** ** The validator, continued *)

(** The loop over two runs of features: a defect in the first run ends it,
    otherwise the second run is checked with its indices shifted. *)
Lemma validate_features_app (xs ys : list json) (i : nat) :
  validate_features i (xs ++ ys)%list =
  match validate_features i xs with
  | Some msg => Some msg
  | None => validate_features (i + List.length xs) ys
  end.
Proof.
  destruct (validate_features i xs) as [msg|] eqn:Hxs.
  - apply validate_features_Some in Hxs.
    destruct Hxs as (pre & f & post & -> & Hpre & Hbad & ->).
    rewrite <- app_assoc, validate_features_prefix by assumption.
    rewrite <- app_comm_cons. now rewrite validate_features_defect by assumption.
  - apply validate_features_None in Hxs. now apply validate_features_prefix.
Qed.

Lemma validate_feature_collection (fs : list json) :
  fs <> [] ->
  validate_geojson (feature_collection fs) =
  match validate_features 0 fs with
  | Some msg => (false, msg)
  | None => (true, "Valid GeoJSON")
  end.
Proof. intros H. now apply validate_collection. Qed.

(** X3: validation is decided by the first defective feature.  A
    non-empty collection that is rejected stays rejected, with the same
    message, whatever features are appended to it; a collection that is
    accepted stays accepted exactly when every appended feature is an object
    of type "Feature" with a geometry key. *)
Theorem validate_geojson_append (xs ys : list json) :
  xs <> [] ->
  (fst (validate_geojson (feature_collection xs)) = false ->
   validate_geojson (feature_collection (xs ++ ys)%list) =
   validate_geojson (feature_collection xs)) /\
  (fst (validate_geojson (feature_collection xs)) = true ->
   (fst (validate_geojson (feature_collection (xs ++ ys)%list)) = true <->
    Forall feature_ok ys)).
Proof.
  intros Hne.
  assert (Hne' : (xs ++ ys)%list <> []) by (destruct xs; [contradiction | discriminate]).
  rewrite !validate_feature_collection by assumption.
  rewrite validate_features_app.
  destruct (validate_features 0 xs) as [msg|] eqn:Hxs; simpl.
  - split; [reflexivity | discriminate].
  - split; [discriminate|]. intros _.
    destruct (validate_features (List.length xs) ys) as [msg|] eqn:Hys; simpl.
    + split; [discriminate|]. intros Hall.
      apply (validate_features_None ys (List.length xs)) in Hall. congruence.
    + split; [|reflexivity]. intros _.
      now apply (validate_features_None ys (List.length xs)).
Qed.

Lemma validate_geojson_append_witness :
  let bare := JDict [("type", JStr "Feature")] in
  validate_geojson (feature_collection [Scenario.feature 1 2 "x"; bare; JInt 7]) =
    (false, "Feature 1 missing geometry") /\
  fst (validate_geojson
         (feature_collection [Scenario.feature 1 2 "x"; Scenario.feature 3 4 "y"])) = true.
Proof.
  intros bare. split.
  - apply (proj1 (validate_geojson_append
                    [Scenario.feature 1 2 "x"; bare] [JInt 7] ltac:(discriminate))).
    reflexivity.
  - apply (proj2 (validate_geojson_append
                    [Scenario.feature 1 2 "x"] [Scenario.feature 3 4 "y"]
                    ltac:(discriminate)) eq_refl).
    repeat constructor. eexists _, _. repeat split; reflexivity.
Defined.

(** X4: the validator's answers form a closed set.  A success always
    carries "Valid GeoJSON"; a failure carries one of five fixed messages or
    the message of a feature that is really in the list, at the index
    reported, is defective, and is the first defective one. *)
Theorem validate_geojson_messages (d : json) :
  validate_geojson d = (true, "Valid GeoJSON") \/
  (exists msg, validate_geojson d = (false, msg) /\ In msg document_messages) \/
  (exists top fs i f,
     d = JDict top /\
     dict_get "features" top = Some (JList fs) /\
     fs !! i = Some f /\ ~ feature_ok f /\
     Forall feature_ok (take i fs) /\
     validate_geojson d = (false, feature_defect i f)).
Proof.
  destruct d as [| | | | | |top];
    try (right; left; eexists; split; [reflexivity | simpl; auto]; fail).
  unfold validate_geojson.
  destruct (ne_str (dict_get "type" top) "FeatureCollection");
    [right; left; eexists; split; [reflexivity | simpl; auto]|].
  destruct (dict_get "features" top) as [v|] eqn:Hfs;
    [|right; left; eexists; split; [reflexivity | simpl; auto]].
  destruct v as [| | | | |fs|];
    try (right; left; eexists; split; [reflexivity | simpl; auto]; fail).
  destruct fs as [|f0 fs0] eqn:E;
    [right; left; eexists; split; [reflexivity | simpl; auto 10]|].
  rewrite <- E in Hfs |- *. clear E.
  destruct (validate_features 0 fs) as [msg|] eqn:Hv; [|now left].
  right; right. apply validate_features_Some in Hv.
  destruct Hv as (pre & f & post & -> & Hpre & Hbad & ->).
  exists top, (pre ++ f :: post)%list, (List.length pre), f.
  split; [reflexivity|]. split; [exact Hfs|].
  split; [now apply list_lookup_middle|]. split; [exact Hbad|].
  split; [now rewrite take_app_length | reflexivity].
Qed.

(** ** The worker, continued *)

Section WorkerFurther.
Context `{P : Platform}.

Ltac unfold_ops :=
  unfold bind, try_except, ret, raise, lift, get, modify, logger, loads,
    get_secret_value, ensure_postgis, getitem in *.

(** A successful call, taken apart. *)
Lemma process_success_inv (bucket key msg : string) (w w' : World) :
  process_geojson_file bucket key w = (inr (true, msg), w') ->
  exists rows engine w1,
    reaches_load bucket key w rows /\
    get_db_connection (before_load bucket key w) = (inr engine, w1) /\
    msg = "Processed " ++ PyStr.of_nat (List.length rows) ++ " features" /\
    tables w' =
      <[table_name key :=
          stamp key (utcnow_at (clock_reads w)) (uuid4_at (uuid_draws w)) rows]>
        (tables w).
Proof.
  intros Hrun.
  destruct (process_before_load bucket key w)
    as [(rows & Hreach)|(m & w0 & Hrun' & _)];
    [|rewrite Hrun in Hrun'; discriminate].
  pose proof (process_at_load bucket key w rows Hreach) as Hload.
  cbv zeta in Hload. rewrite Hrun in Hload.
  destruct (get_db_connection (before_load bucket key w)) as [[e|engine] w1] eqn:Hconn;
    [discriminate|].
  destruct (get_db_connection_frame _ _ _ Hconn) as (Ht1 & _).
  destruct (to_postgis_cases
              (stamp key (utcnow_at (clock_reads w)) (uuid4_at (uuid_draws w)) rows)
              (table_name key) engine w1)
    as [(e & w2 & Hwrite & _)|(w2 & Hwrite & Ht2 & _)];
    rewrite Hwrite in Hload; [discriminate|].
  injection Hload as -> ->.
  exists rows, engine, w1. repeat split; auto.
  simpl. now rewrite Ht2, Ht1.
Qed.

(** X5: a document the validator rejects is answered with the validator's
    own message, unchanged.  The object has been read once; the reader, the
    clock, the id source, the secret store and the database are not used and
    no table changes. *)
Theorem process_validation_failure (bucket key body text msg : string)
    (doc : json) (w : World) :
  s3_get_object_at (s3_reads w) bucket key = inr body ->
  decode_utf8 body = inr text ->
  json_loads text = inr doc ->
  validate_geojson doc = (false, msg) ->
  exists w',
    process_geojson_file bucket key w = (inr (false, msg), w') /\
    s3_reads w' = S (s3_reads w) /\ clock_reads w' = clock_reads w /\
    uuid_draws w' = uuid_draws w /\ secret_reads w' = secret_reads w /\
    db_ops w' = db_ops w /\ tables w' = tables w /\
    log w' = (log w ++ [(INFO, "Processing file: s3://" ++ bucket ++ "/" ++ key)%string;
                        (ERROR, "Invalid GeoJSON: " ++ msg)%string])%list.
Proof.
  intros H1 Hdec Hjson Hval.
  unfold process_geojson_file.
  unfold bind at 1. unfold logger at 1, modify at 1. unfold try_except.
  unfold bind at 1. unfold s3_get_object at 1. cbn [s3_reads with_log].
  rewrite H1. unfold bind at 1. rewrite Hdec. cbn [lift]. unfold ret at 1.
  unfold bind at 1. unfold loads. rewrite Hjson. unfold ret at 1.
  rewrite Hval. cbn [negb]. unfold bind, logger, modify, ret.
  eexists. split; [reflexivity|]. simpl. repeat split; auto.
  now rewrite <- app_assoc.
Qed.

(** X6: when the object cannot be fetched, decoded or parsed, the worker
    returns a failure that carries the cause: "Invalid JSON format: <cause>"
    for a JSON decode error, "Error processing file: <cause>" otherwise.
    Only the one read has happened; no table changes. *)
Theorem process_unreadable_source (bucket key : string) (e : exn) (w : World) :
  source_unreadable bucket key w e ->
  exists w',
    process_geojson_file bucket key w = (inr (false, failure_message e), w') /\
    s3_reads w' = S (s3_reads w) /\ clock_reads w' = clock_reads w /\
    uuid_draws w' = uuid_draws w /\ secret_reads w' = secret_reads w /\
    db_ops w' = db_ops w /\ tables w' = tables w.
Proof.
  intros Hbad.
  unfold process_geojson_file.
  unfold bind at 1. unfold logger at 1, modify at 1. unfold try_except.
  unfold bind at 1. unfold s3_get_object at 1. cbn [s3_reads with_log].
  destruct Hbad as [H1|[(body & H1 & Hdec)|(body & text & m & H1 & Hdec & Hjson & ->)]];
    rewrite H1.
  - unfold failure_message. destruct (exn_kind e);
      (eexists; split; [reflexivity | simpl; auto 10]).
  - unfold bind at 1. rewrite Hdec. cbn [lift]. unfold raise at 1.
    unfold failure_message. destruct (exn_kind e);
      (eexists; split; [reflexivity | simpl; auto 10]).
  - unfold bind at 1. rewrite Hdec. cbn [lift]. unfold ret at 1.
    unfold bind at 1. unfold loads. rewrite Hjson. unfold raise at 1.
    eexists; split; [reflexivity | simpl; auto 10].
Qed.

(** As [process_before_load], with the account of every service. *)
Lemma process_before_load_frame (bucket key : string) (w : World) :
  (exists rows, reaches_load bucket key w rows) \/
  (exists msg w',
     process_geojson_file bucket key w = (inr (false, msg), w') /\
     tables w' = tables w /\ db_engine w' = db_engine w /\
     secret_reads w' = secret_reads w /\ db_ops w' = db_ops w /\
     (s3_reads w < s3_reads w' <= S (S (s3_reads w)))%nat).
Proof.
  assert (Hcaught : forall (e : exn) (w0 : World),
    tables w0 = tables w -> db_engine w0 = db_engine w ->
    secret_reads w0 = secret_reads w -> db_ops w0 = db_ops w ->
    (s3_reads w < s3_reads w0 <= S (S (s3_reads w)))%nat ->
    exists msg w',
      match exn_kind e with
      | JSONDecodeError =>
          bind (logger ERROR ("Invalid JSON format: " ++ exn_text e))
            (fun _ => ret (false, "Invalid JSON format: " ++ exn_text e))
      | _ =>
          bind (logger ERROR ("Error processing file: " ++ exn_text e))
            (fun _ => ret (false, "Error processing file: " ++ exn_text e))
      end w0 = (inr (false, msg), w') /\
      tables w' = tables w /\ db_engine w' = db_engine w /\
      secret_reads w' = secret_reads w /\ db_ops w' = db_ops w /\
      (s3_reads w < s3_reads w' <= S (S (s3_reads w)))%nat).
  { intros e w0 ? ? ? ? ?. destruct (exn_kind e); eexists _, _;
      (split; [reflexivity | simpl; auto]). }
  unfold reaches_load, process_geojson_file.
  unfold bind at 1. unfold logger at 1, modify at 1. unfold try_except.
  unfold bind at 1. unfold s3_get_object at 1. cbn [s3_reads with_log].
  destruct (s3_get_object_at (s3_reads w) bucket key) as [e|body1] eqn:H1;
    [right; apply Hcaught; simpl; auto; lia|].
  unfold bind at 1.
  destruct (decode_utf8 body1) as [e|text] eqn:Hdec; cbn [lift];
    [right; apply Hcaught; simpl; auto; lia|].
  unfold ret at 1. unfold bind at 1. unfold loads.
  destruct (json_loads text) as [m|doc] eqn:Hjson;
    [right; apply (Hcaught (Exn JSONDecodeError m)); simpl; auto; lia|].
  unfold ret at 1.
  destruct (validate_geojson doc) as [is_valid message] eqn:Hval.
  destruct is_valid; cbn [negb];
    [|right; eexists _, _; split; [reflexivity | simpl; repeat split; auto; lia]].
  unfold bind at 1. unfold gpd_read_file. unfold bind at 1.
  unfold s3_get_object at 1. cbn [s3_reads with_s3_reads].
  destruct (s3_get_object_at (S (s3_reads w)) bucket key) as [e|body2] eqn:H2;
    [right; apply Hcaught; simpl; auto; lia|].
  destruct (gpd_parse body2) as [e|rows] eqn:Hparse; cbn [lift];
    [right; apply Hcaught; simpl; auto; lia|].
  left. exists rows, body1, text, doc, body2. rewrite Hval. auto 10.
Qed.

(** X7: what a call leaves alone.  Whatever its outcome, a call changes
    no table other than the one named after its key and reads the object
    once or twice.  When an engine is already cached it stays cached, the
    secret store is not contacted and at most one database operation is
    made. *)
Theorem process_frame (bucket key : string) (w : World) :
  let w' := snd (process_geojson_file bucket key w) in
  (forall name, name <> table_name key -> tables w' !! name = tables w !! name) /\
  (s3_reads w < s3_reads w' <= S (S (s3_reads w)))%nat /\
  (forall engine,
     db_engine w = Some engine ->
     db_engine w' = Some engine /\ secret_reads w' = secret_reads w /\
     (db_ops w' <= S (db_ops w))%nat).
Proof.
  cbv zeta.
  destruct (process_before_load_frame bucket key w)
    as [(rows & Hreach)|(msg & w' & Hrun & Ht & He & Hs & Hd & Hr)].
  2:{ rewrite Hrun. simpl. rewrite Ht, He, Hs, Hd.
      split; [auto | split; [exact Hr|]]. intros engine ->. auto. }
  rewrite (process_at_load bucket key w rows Hreach). cbv zeta.
  destruct (get_db_connection (before_load bucket key w)) as [[e|engine] w1] eqn:Hconn.
  - destruct (get_db_connection_frame _ _ _ Hconn) as (Ht1 & Hs1 & _).
    simpl. rewrite Ht1, Hs1. simpl.
    split; [auto | split; [lia|]]. intros cached Hc.
    rewrite (get_db_connection_cached (before_load bucket key w) cached Hc) in Hconn.
    discriminate.
  - destruct (get_db_connection_frame _ _ _ Hconn) as (Ht1 & Hs1 & _).
    unfold to_postgis.
    assert (Hcached : forall cached, db_engine w = Some cached ->
              db_engine w1 = Some cached /\ secret_reads w1 = secret_reads w /\
              db_ops w1 = db_ops w).
    { intros cached Hc.
      rewrite (get_db_connection_cached (before_load bucket key w) cached Hc) in Hconn.
      injection Hconn as <- <-. auto. }
    destruct (db_connect_fault_at (db_ops w1)) as [e|].
    { simpl. rewrite Ht1, Hs1. simpl. split; [auto | split; [lia|]].
      intros cached Hc. destruct (Hcached cached Hc) as (-> & -> & ->). auto. }
    destruct (db_write_fault_at _ _ _) as [e|].
    { simpl. rewrite Ht1, Hs1. simpl. split; [auto | split; [lia|]].
      intros cached Hc. destruct (Hcached cached Hc) as (-> & -> & ->). auto. }
    simpl. rewrite Ht1, Hs1. simpl. split; [|split; [lia|]].
    + intros name Hne. now rewrite lookup_insert_ne by congruence.
    + intros cached Hc. destruct (Hcached cached Hc) as (-> & -> & ->). auto.
Qed.

(** X8: a call hands the engine out again.  Once [get_db_connection]
    has returned an engine, every later call returns that engine at once:
    the secret is not fetched again, no database operation is made and the
    world is left exactly as it was. *)
Theorem get_db_connection_reuses (w w' : World) (engine : string) :
  get_db_connection w = (inr engine, w') ->
  get_db_connection w' = (inr engine, w') /\
  (forall w'' : World,
     db_engine w'' = db_engine w' -> get_db_connection w'' = (inr engine, w'')).
Proof.
  intros Hconn.
  destruct (get_db_connection_frame _ _ _ Hconn) as (_ & _ & _ & _ & Hcached).
  specialize (Hcached engine eq_refl).
  split; [now apply get_db_connection_cached|].
  intros w'' Heq. apply get_db_connection_cached. congruence.
Qed.

(** X9: a failed first connection still caches the engine.  When the
    secret resolves but the store refuses the connection, the call raises,
    PostGIS has not been enabled, and yet the engine is stored: the next call
    returns it without trying to enable PostGIS again. *)
Theorem get_db_connection_caches_before_connecting (w : World) (e : exn) :
  db_engine w = None ->
  credentials_resolve ->
  db_connect_fault_at (db_ops w) = Some e ->
  exists engine w',
    get_db_connection w = (inl e, w') /\
    db_engine w' = Some engine /\ postgis w' = postgis w /\
    get_db_connection w' = (inr engine, w') /\
    log w' = (log w ++ [(ERROR, "Failed to get database connection: " ++ exn_text e)%string])%list.
Proof.
  intros Hnone
    (text & secret & u & p & h & po & d & engine & Hsec & Hjson & Hu & Hp & Hh & Hpo & Hd & Heng)
    Hfault.
  exists engine.
  unfold get_db_connection at 1. unfold_ops. rewrite Hnone, Hsec, Hjson. simpl.
  rewrite Hu, Hp, Hh, Hpo, Hd. simpl in Heng |- *. rewrite Heng. simpl.
  rewrite Hfault. eexists. split; [reflexivity|].
  split; [reflexivity | split; [reflexivity | split; [|reflexivity]]].
  now apply get_db_connection_cached.
Qed.

(** X10: a secret that lacks one of the five connection fields makes the
    call raise KeyError naming the first missing field, in the order
    username, password, host, port, dbname.  No engine is cached and the
    database is not contacted. *)
Theorem get_db_connection_missing_field (w : World) (text field : string)
    (secret : list (string * json)) :
  db_engine w = None ->
  get_secret_value_at (secret_reads w) = inr text ->
  json_loads text = inr (JDict secret) ->
  first_missing connection_fields secret = Some field ->
  exists w',
    get_db_connection w = (inl (Exn KeyError ("'" ++ field ++ "'")), w') /\
    db_engine w' = None /\ db_ops w' = db_ops w /\ tables w' = tables w /\
    log w' = (log w ++ [(ERROR, "Failed to get database connection: '" ++ field ++ "'")%string])%list.
Proof.
  intros Hnone Hsec Hjson Hmiss.
  unfold get_db_connection. unfold_ops. rewrite Hnone, Hsec, Hjson. simpl.
  unfold connection_fields, first_missing, dict_has in Hmiss.
  destruct (dict_get "username" secret); simpl;
    [|injection Hmiss as <-; eexists; split; [reflexivity | simpl; auto]].
  destruct (dict_get "password" secret); simpl;
    [|injection Hmiss as <-; eexists; split; [reflexivity | simpl; auto]].
  destruct (dict_get "host" secret); simpl;
    [|injection Hmiss as <-; eexists; split; [reflexivity | simpl; auto]].
  destruct (dict_get "port" secret); simpl;
    [|injection Hmiss as <-; eexists; split; [reflexivity | simpl; auto]].
  destruct (dict_get "dbname" secret); simpl;
    [discriminate|injection Hmiss as <-; eexists; split; [reflexivity | simpl; auto]].
Qed.

(** X11: a secret that is not valid JSON is reported as a defect of the
    file.  When the file has passed validation and has been read again, no
    engine is cached and the secret's text does not parse, the worker answers
    "Invalid JSON format: <cause>", the message it also gives for a file that
    is not JSON; no table changes. *)
Theorem process_malformed_secret (bucket key text msg : string)
    (rows : list row) (w : World) :
  reaches_load bucket key w rows ->
  db_engine w = None ->
  get_secret_value_at (secret_reads w) = inr text ->
  json_loads text = inl msg ->
  exists w',
    process_geojson_file bucket key w =
      (inr (false, "Invalid JSON format: " ++ msg), w') /\
    tables w' = tables w /\ db_engine w' = None.
Proof.
  intros Hreach Hnone Hsec Hjson.
  rewrite (process_at_load bucket key w rows Hreach). cbv zeta.
  assert (Hconn : exists w1,
            get_db_connection (before_load bucket key w) =
              (inl (Exn JSONDecodeError msg), w1) /\
            tables w1 = tables w /\ db_engine w1 = None).
  { unfold get_db_connection. unfold_ops.
    change (db_engine (before_load bucket key w)) with (db_engine w).
    rewrite Hnone.
    change (secret_reads (before_load bucket key w)) with (secret_reads w).
    rewrite Hsec, Hjson.
    eexists. split; [reflexivity | simpl; auto]. }
  destruct Hconn as (w1 & -> & Ht & He).
  eexists. split; [reflexivity | simpl; auto].
Qed.

(** X12: what a successful call writes is what the reader returned.  The
    table has one row per row of the second read, in the same order; each
    carries the key as file_source, the time read once as processed_at and
    the one id as processing_id, overwriting columns of those names, and
    keeps every other column as it was read. *)
Theorem process_writes_rows_read (bucket key msg : string) (w w' : World) :
  process_geojson_file bucket key w = (inr (true, msg), w') ->
  exists rows written,
    second_read bucket key w = inr rows /\
    tables w' !! table_name key = Some written /\
    List.length written = List.length rows /\
    forall i (r : row),
      rows !! i = Some r ->
      exists r' : row,
        written !! i = Some r' /\
        r' !! "file_source" = Some (CText key) /\
        r' !! "processed_at" = Some (CTime (utcnow_at (clock_reads w))) /\
        r' !! "processing_id" = Some (CText (uuid4_at (uuid_draws w))) /\
        forall column,
          column <> "file_source" -> column <> "processed_at" ->
          column <> "processing_id" ->
          r' !! column = r !! column.
Proof.
  intros Hrun.
  destruct (process_success_inv _ _ _ _ _ Hrun)
    as (rows & engine & w1 & Hreach & _ & _ & Ht).
  apply reaches_load_split in Hreach as [_ Hread].
  exists rows. eexists. split; [exact Hread|].
  split; [rewrite Ht; apply lookup_insert_eq|].
  unfold stamp, set_column. split; [now rewrite !length_fmap|].
  intros i r Hi. rewrite !list_lookup_fmap, Hi. simpl.
  eexists. split; [reflexivity|].
  split; [rewrite !lookup_insert_ne by discriminate; apply lookup_insert_eq|].
  split; [rewrite lookup_insert_ne by discriminate; apply lookup_insert_eq|].
  split; [apply lookup_insert_eq|].
  intros column H1 H2 H3. now rewrite !lookup_insert_ne by congruence.
Qed.

End WorkerFurther.

(** ** The table name against the specification's derivation *)

Lemma each_char_map (f : ascii -> ascii) (s : string) :
  each_char f s = PyStr.map f s.
Proof.
  unfold each_char. induction s as [|c s IH]; simpl; [reflexivity | now rewrite IH].
Qed.

Lemma substring_take (n : nat) (s : string) :
  String.substring 0 n s = PyStr.take n s.
Proof.
  revert s. induction n as [|n IH]; intros [|c s]; simpl; try reflexivity.
  now rewrite IH.
Qed.

(** The worker's lower-casing of a character agrees with the table of
    capitals. *)
Lemma lower_char_table (c : ascii) : PyStr.lower_char c = small_letter_of c.
Proof. destruct c as [[] [] [] [] [] [] [] []]; reflexivity. Qed.

Lemma table_name_by_derivation (key : string) :
  table_name key = deriveTableName_spec key.
Proof.
  unfold table_name, deriveTableName_spec.
  rewrite three_replaces_one_pass, substring_take, !each_char_map.
  unfold PyStr.lower. f_equal. apply map_ext_str, lower_char_table.
Qed.

(** C4: the table name computed by the worker is the key with each of '/',
    '.', '-' replaced by an underscore, prefixed with "geojson_", lower-cased
    and cut to at most 63 characters.  The name depends on the key alone:
    whatever the platform, the bucket and the state of the world, every
    successful call for a key writes the table of that one name, so that
    repeated calls with the same key have the identical write target. *)
Theorem table_name_derivation (key : string) :
  table_name key = deriveTableName_spec key /\
  (String.length (table_name key) <= 63)%nat /\
  (forall (P1 P2 : Platform) (bucket1 bucket2 msg1 msg2 : string)
          (w1 w1' w2 w2' : World),
     @process_geojson_file P1 bucket1 key w1 = (inr (true, msg1), w1') ->
     @process_geojson_file P2 bucket2 key w2 = (inr (true, msg2), w2') ->
     exists gdf1 gdf2,
       tables w1' = <[deriveTableName_spec key := gdf1]> (tables w1) /\
       tables w2' = <[deriveTableName_spec key := gdf2]> (tables w2)).
Proof.
  split; [apply table_name_by_derivation | split].
  - unfold table_name. rewrite take_length_str. apply Nat.le_min_l.
  - intros P1 P2 bucket1 bucket2 msg1 msg2 w1 w1' w2 w2' Hrun1 Hrun2.
    destruct (@process_success_inv P1 _ _ _ _ _ Hrun1) as (rows1 & _ & _ & _ & _ & _ & Ht1).
    destruct (@process_success_inv P2 _ _ _ _ _ Hrun2) as (rows2 & _ & _ & _ & _ & _ & Ht2).
    rewrite table_name_by_derivation in Ht1, Ht2. eauto.
Qed.

Lemma table_name_derivation_witness :
  table_name "Region-A/b.GeoJSON" = "geojson_region_a_b_geojson" /\
  (String.length
     (table_name "surveys/2024/north-east/district-0042/parcels/lot-17/batch-a.geojson")
   <= 63)%nat /\
  let first := @process_geojson_file (Scenario.platform false)
                 "uploads" "region/a.geojson" Scenario.fresh in
  let second := @process_geojson_file (ScenarioSecrets.platform Scenario.secret_text)
                  "archive" "region/a.geojson" (snd first) in
  exists gdf1 gdf2,
    tables (snd first) = <["geojson_region_a_geojson" := gdf1]> ∅ /\
    tables (snd second) = <["geojson_region_a_geojson" := gdf2]> (tables (snd first)).
Proof.
  split; [|split].
  - rewrite (proj1 (table_name_derivation "Region-A/b.GeoJSON")). reflexivity.
  - exact (proj1 (proj2 (table_name_derivation
             "surveys/2024/north-east/district-0042/parcels/lot-17/batch-a.geojson"))).
  - intros first second.
    assert (H1 : first = (inr (true, "Processed 1 features"), snd first))
      by (vm_compute; reflexivity).
    assert (H2 : second = (inr (true, "Processed 1 features"), snd second))
      by (vm_compute; reflexivity).
    exact (proj2 (proj2 (table_name_derivation "region/a.geojson"))
             (Scenario.platform false) (ScenarioSecrets.platform Scenario.secret_text)
             "uploads" "archive" _ _ Scenario.fresh (snd first) (snd first) (snd second)
             H1 H2).
Defined.

(** ** The dispatcher, continued *)

Section DispatcherFurther.
Context `{R : LambdaRuntime}.

(** A launch that returns has called [run_task] exactly once, for the bucket
    and key given, and was answered without failures. *)
Lemma run_ecs_task_returns (bucket key : string) (c c' : Cloud)
    (response : run_task_response) :
  run_ecs_task bucket key c = (inr response, c') ->
  exists config,
    ecs_calls c' = (ecs_calls c ++ [config])%list /\
    launch_target config = (bucket, key) /\
    tag_SourceFile config = "s3://" ++ bucket ++ "/" ++ key /\
    run_task_at (ecs_calls c) config = inr response /\
    failures response = [].
Proof.
  unfold run_ecs_task, getenv.
  repeat (unfold bind at 1;
          destruct (environ !! _);
          [unfold ret at 1 | unfold raise; discriminate]).
  unfold bind at 1, run_task at 1.
  destruct (run_task_at _ _) as [e|resp] eqn:Hrun; [discriminate|].
  destruct (failures resp) eqn:Hfail.
  - unfold bind, ret. destruct (tasks resp);
      intros [= <- <-]; eexists; simpl; eauto 10.
  - unfold bind, lambda_logger, modify, raise. discriminate.
Qed.

(** The calls a run of the loop adds are those for the qualifying
    notifications, in batch order, up to the point where it stopped. *)
Lemma handler_loop_trace (records : list s3_record) (c c' : Cloud)
    (r : exn + unit) :
  handler_loop records c = (r, c') ->
  exists launched,
    ecs_calls c' = (ecs_calls c ++ launched)%list /\
    (launch_target <$> launched) `prefix_of` qualifying_targets records /\
    (forall u, r = inr u -> launch_target <$> launched = qualifying_targets records).
Proof.
  revert c. induction records as [|record records IH]; intros c.
  { intros [= <- <-]. exists []. rewrite app_nil_r.
    split; [reflexivity | split; [apply prefix_nil | reflexivity]]. }
  rewrite handler_loop_cons. cbv zeta.
  unfold qualifying_targets. rewrite filter_cons.
  destruct (is_geojson_key (decoded_key record)) eqn:Hgeo.
  - rewrite decide_True by reflexivity. rewrite fmap_cons.
    destruct (run_ecs_task _ _ _) as [[e|response] c1] eqn:Hrun.
    + intros [= <- <-].
      destruct (run_ecs_task_calls _ _ _ _ _ Hrun) as [Hsame|(config & Hcfg & Hb & Hk)].
      * exists []. rewrite app_nil_r.
        split; [exact Hsame | split; [apply prefix_nil | discriminate]].
      * exists [config].
        split; [exact Hcfg | split; [|discriminate]].
        simpl. unfold launch_target. rewrite Hb, Hk.
        apply prefix_cons, prefix_nil.
    + intros Hrest. destruct (IH _ Hrest) as (launched & Hcalls & Hpre & Hall).
      destruct (run_ecs_task_returns _ _ _ _ _ Hrun) as (config & Hcfg & Htarget & _).
      exists (config :: launched).
      split; [|split].
      * rewrite Hcalls. cbn [ecs_calls logged]. rewrite Hcfg.
        now rewrite <- app_assoc.
      * rewrite fmap_cons, Htarget. now apply prefix_cons.
      * intros u Hu. rewrite fmap_cons, Htarget. f_equal. now apply (Hall u).
  - rewrite decide_False by discriminate.
    intros Hrest. destruct (IH _ Hrest) as (launched & Hcalls & Hpre & Hall).
    exists launched. split; [exact Hcalls | split; [exact Hpre | exact Hall]].
Qed.

(** X13: what the handler launches, whatever happens.  The run_task calls
    of one invocation are made for the notifications that pass the extension
    filter, with their bucket and decoded key, in batch order, one call each
    and without gaps: the calls made are a prefix of that list.  The status
    is 200 or 500, and with status 200 the whole list has been launched. *)
Theorem handler_launches_in_order (records : list s3_record)
    (aws_request_id : string) (c : Cloud) :
  let outcome := handler records aws_request_id c in
  exists launched,
    ecs_calls (snd outcome) = (ecs_calls c ++ launched)%list /\
    (launch_target <$> launched) `prefix_of` qualifying_targets records /\
    (statusCode (fst outcome) = 200%nat \/ statusCode (fst outcome) = 500%nat) /\
    (statusCode (fst outcome) = 200%nat ->
     launch_target <$> launched = qualifying_targets records).
Proof.
  cbv zeta. unfold handler.
  destruct (handler_loop records c) as [[e|[]] c'] eqn:Hloop;
    destruct (handler_loop_trace _ _ _ _ Hloop) as (launched & Hcalls & Hpre & Hall);
    exists launched; simpl.
  - split; [exact Hcalls | split; [exact Hpre | split; [now right | discriminate]]].
  - split; [exact Hcalls | split; [exact Hpre | split; [now left|]]].
    intros _. now apply (Hall tt).
Qed.

(** X14: a batch in which no key ends in ".geojson" (the empty batch
    included) is answered with status 200 and the count of notifications,
    without reading a setting and without calling run_task, whatever the
    state of the cluster. *)
Theorem handler_nothing_to_launch (records : list s3_record)
    (aws_request_id : string) (c : Cloud) :
  Forall (fun record => is_geojson_key (decoded_key record) = false) records ->
  fst (handler records aws_request_id c) =
    {| statusCode := 200;
       body := [("message",
                 "Successfully processed " ++ PyStr.of_nat (List.length records) ++
                 " files");
                ("timestamp", aws_request_id)] |} /\
  ecs_calls (snd (handler records aws_request_id c)) = ecs_calls c.
Proof.
  intros Hnone.
  assert (Hloop : exists c', handler_loop records c = (inr tt, c') /\
                             ecs_calls c' = ecs_calls c).
  { revert c. induction Hnone as [|record records Hrec _ IH]; intros c.
    - exists c. split; reflexivity.
    - rewrite handler_loop_cons. cbv zeta. rewrite Hrec.
      match goal with |- context [handler_loop records ?c0] =>
        destruct (IH c0) as (c' & -> & Hcalls) end.
      exists c'. split; [reflexivity | exact Hcalls]. }
  destruct Hloop as (c' & Hloop & Hcalls).
  unfold handler. rewrite Hloop. split; [reflexivity | exact Hcalls].
Qed.

(** With a setting missing, a launch raises before it calls [run_task]. *)
Lemma run_ecs_task_unset (bucket key name : string) (c : Cloud) :
  first_unset ecs_settings = Some name ->
  run_ecs_task bucket key c = (inl (Exn KeyError ("'" ++ name ++ "'")), c).
Proof.
  unfold ecs_settings, first_unset, run_ecs_task, getenv.
  repeat (unfold bind at 1;
          destruct (environ !! _);
          [unfold ret at 1 | intros [= <-]; reflexivity]).
  discriminate.
Qed.

(** X15: when one of the four ECS settings is missing from the
    environment, a batch that holds a qualifying key is answered with status
    500 and, as error text, the quoted name of the first missing setting (in
    the order cluster name, task definition, subnets, security groups);
    run_task is never called. *)
Theorem handler_missing_setting (records : list s3_record)
    (aws_request_id name : string) (c : Cloud) :
  first_unset ecs_settings = Some name ->
  Exists (fun record => is_geojson_key (decoded_key record) = true) records ->
  fst (handler records aws_request_id c) =
    {| statusCode := 500;
       body := [("error", "'" ++ name ++ "'"); ("timestamp", aws_request_id)] |} /\
  ecs_calls (snd (handler records aws_request_id c)) = ecs_calls c.
Proof.
  intros Hunset Hsome.
  assert (Hloop : exists c', handler_loop records c =
                               (inl (Exn KeyError ("'" ++ name ++ "'")), c') /\
                             ecs_calls c' = ecs_calls c).
  { revert c. induction records as [|record records IH]; intros c.
    - inversion Hsome.
    - rewrite handler_loop_cons. cbv zeta.
      destruct (is_geojson_key (decoded_key record)) eqn:Hgeo.
      + rewrite (run_ecs_task_unset _ _ name _ Hunset).
        eexists. split; reflexivity.
      + assert (Hrest : Exists (fun record => is_geojson_key (decoded_key record) = true)
                          records).
        { inversion Hsome; subst; [congruence | assumption]. }
        match goal with |- context [handler_loop records ?c0] =>
          destruct (IH Hrest c0) as (c' & -> & Hcalls) end.
        exists c'. split; [reflexivity | exact Hcalls]. }
  destruct Hloop as (c' & Hloop & Hcalls).
  unfold handler. rewrite Hloop. simpl. split; [reflexivity | exact Hcalls].
Qed.

(** X16: when a launch succeeds and when it does not.  With the four
    settings present, [run_ecs_task] calls run_task once, with the subnets
    setting split at its commas, the one security group, the bucket and key
    as container environment and "s3://bucket/key" as source tag.  It returns
    the answer exactly when the answer lists no failure; an answer that
    lists a failure makes it raise "ECS task failed to start: ..." although
    the call has been made, whether or not the answer also lists started
    tasks; an exception of run_task is passed on. *)
Theorem run_ecs_task_outcome (bucket key cluster_name task_definition
    subnets_csv security_group : string) (c : Cloud) :
  environ !! "ECS_CLUSTER_NAME" = Some cluster_name ->
  environ !! "ECS_TASK_DEFINITION" = Some task_definition ->
  environ !! "ECS_SUBNETS" = Some subnets_csv ->
  environ !! "ECS_SECURITY_GROUPS" = Some security_group ->
  let config :=
    {| cluster := cluster_name; taskDefinition := task_definition;
       subnets := PyStr.split "," subnets_csv;
       securityGroups := [security_group];
       env_S3_BUCKET := bucket; env_S3_KEY := key;
       tag_SourceFile := "s3://" ++ bucket ++ "/" ++ key |} in
  let outcome := run_ecs_task bucket key c in
  ecs_calls (snd outcome) = (ecs_calls c ++ [config])%list /\
  match run_task_at (ecs_calls c) config with
  | inl e => fst outcome = inl e
  | inr response =>
      match failures response with
      | [] => fst outcome = inr response
      | _ :: _ =>
          fst outcome =
            inl (Exn OtherException
                   ("ECS task failed to start: " ++ repr_failures (failures response)))
      end
  end.
Proof.
  intros Ha Hb Hs Hg config outcome. subst outcome.
  unfold run_ecs_task, getenv. rewrite Ha, Hb, Hs, Hg.
  unfold bind, ret, run_task, lambda_logger, modify, raise. fold config.
  destruct (run_task_at (ecs_calls c) config) as [e|response]; [split; reflexivity|].
  destruct (failures response) eqn:Hfail.
  - destruct (tasks response); split; reflexivity.
  - split; reflexivity.
Qed.

End DispatcherFurther.

(** ** The key check [validate_geojson_key] *)

Lemma prefix_app_self (s t : string) : String.prefix s (s ++ t) = true.
Proof.
  induction s as [|a s IH]; simpl; [now destruct t|].
  destruct (ascii_dec a a); [exact IH | contradiction].
Qed.

Lemma contains_app_middle (a sub b : string) :
  PyStr.contains sub (a ++ sub ++ b) = true.
Proof.
  induction a as [|x a IH].
  - change ("" ++ sub ++ b) with (sub ++ b).
    pose proof (prefix_app_self sub b) as Hpre.
    destruct (sub ++ b); cbn [PyStr.contains]; now rewrite Hpre.
  - change (String x a ++ sub ++ b) with (String x (a ++ sub ++ b)).
    cbn [PyStr.contains]. rewrite IH. apply orb_true_r.
Qed.

Lemma first_system_folder_None (folders : list string) (lowered : string) :
  first_system_folder folders lowered = None <->
  Forall (fun folder => PyStr.contains folder lowered = false) folders.
Proof.
  induction folders as [|f folders IH]; simpl.
  - split; [constructor | reflexivity].
  - destruct (PyStr.contains f lowered) eqn:Hf.
    + split; [discriminate | inversion 1; congruence].
    + rewrite IH. split; [now constructor | now inversion 1].
Qed.

Lemma first_system_folder_In (folders : list string) (lowered folder : string) :
  first_system_folder folders lowered = Some folder ->
  In folder folders /\ PyStr.contains folder lowered = true.
Proof.
  induction folders as [|f folders IH]; simpl; [discriminate|].
  destruct (PyStr.contains f lowered) eqn:Hf.
  - intros [= <-]. auto.
  - intros H. destruct (IH H). auto.
Qed.

(** X17: the key check accepts a key exactly when its lower-cased form
    ends in ".geojson" and contains none of "_system", ".tmp", "logs",
    "backups".  A key that lacks the extension gets "Not a GeoJSON file"; a
    key with the extension that is rejected gets "File in system folder:
    <name>" for a name that does occur in it.  Every key the check accepts
    also passes the handler's extension filter. *)
Theorem validate_geojson_key_spec (key : string) :
  (fst (validate_geojson_key key) = true <->
   is_geojson_key key = true /\
   Forall (fun folder => PyStr.contains folder (PyStr.lower key) = false)
          system_folder_names) /\
  (is_geojson_key key = false ->
   validate_geojson_key key = (false, "Not a GeoJSON file")) /\
  (is_geojson_key key = true -> fst (validate_geojson_key key) = false ->
   exists folder,
     validate_geojson_key key = (false, "File in system folder: " ++ folder) /\
     In folder system_folder_names /\
     PyStr.contains folder (PyStr.lower key) = true).
Proof.
  unfold validate_geojson_key, is_geojson_key. fold system_folder_names.
  destruct (PyStr.endswith (PyStr.lower key) ".geojson"); cbn [negb].
  - destruct (first_system_folder system_folder_names (PyStr.lower key))
      as [folder|] eqn:Hfirst.
    + apply first_system_folder_In in Hfirst as Hin. destruct Hin as [Hin Hsub].
      split; [split|split].
      * discriminate.
      * intros [_ Hall]. apply first_system_folder_None in Hall. congruence.
      * discriminate.
      * intros _ _. exists folder. auto.
    + apply first_system_folder_None in Hfirst.
      split; [split|split]; auto; discriminate.
  - split; [split|split]; try discriminate; auto.
    intros [H _]. discriminate.
Qed.

Lemma validate_geojson_key_spec_witness :
  fst (validate_geojson_key "Region/A.GeoJSON") = true /\
  validate_geojson_key "region/a.txt" = (false, "Not a GeoJSON file").
Proof.
  split.
  - apply (proj1 (validate_geojson_key_spec "Region/A.GeoJSON")).
    split; [reflexivity | repeat constructor].
  - apply (proj1 (proj2 (validate_geojson_key_spec "region/a.txt"))). reflexivity.
Defined.

(** X18: the folder test of the key check is a substring test on the
    lower-cased key.  A key is rejected as soon as one of the four names
    occurs anywhere in it, in any letter case: inside a longer word or in the
    file name as well as in a leading folder. *)
Theorem validate_geojson_key_rejects_substring (before name after : string) :
  In (PyStr.lower name) system_folder_names ->
  fst (validate_geojson_key (before ++ name ++ after)) = false.
Proof.
  intros Hin. unfold validate_geojson_key.
  destruct (negb _); [reflexivity|]. fold system_folder_names.
  destruct (first_system_folder system_folder_names
              (PyStr.lower (before ++ name ++ after))) as [folder|] eqn:Hfirst;
    [reflexivity|].
  apply first_system_folder_None in Hfirst.
  rewrite Forall_forall in Hfirst.
  specialize (Hfirst (PyStr.lower name) ltac:(now apply list_elem_of_In)).
  rewrite !lower_app, contains_app_middle in Hfirst. discriminate.
Qed.

Lemma validate_geojson_key_rejects_substring_witness :
  validate_geojson_key "maps/Catalogs/rivers.geojson" =
    (false, "File in system folder: logs") /\
  fst (validate_geojson_key "maps/rivers.TMP.geojson") = false.
Proof.
  split; [reflexivity|].
  apply (validate_geojson_key_rejects_substring "maps/rivers" ".TMP" ".geojson").
  vm_compute. auto.
Defined.


(** *** The worker on the scenarios, continued *)

Lemma process_frame_witness :
  let w := with_tables (<["geojson_other" := []]> ∅)
             (with_db_engine (Some "postgresql://gis:pw@db.internal:5432/geo")
                Scenario.fresh) in
  let w' := snd (@process_geojson_file (Scenario.platform false)
                   "uploads" "region/a.geojson" w) in
  tables w' !! "geojson_other" = Some [] /\ secret_reads w' = 0%nat /\
  (db_ops w' <= 1)%nat.
Proof.
  intros w w'.
  destruct (@process_frame (Scenario.platform false) "uploads" "region/a.geojson" w)
    as (Hother & _ & Hcached).
  destruct (Hcached "postgresql://gis:pw@db.internal:5432/geo" eq_refl)
    as (_ & Hs & Hd).
  split; [|split; [exact Hs | exact Hd]].
  exact (Hother "geojson_other" ltac:(discriminate)).
Defined.

Lemma process_validation_failure_witness :
  exists w',
    @process_geojson_file (Scenario.platform false) "uploads" "region/empty.geojson"
      Scenario.fresh = (inr (false, "No features in collection"), w') /\
    s3_reads w' = 1%nat /\ uuid_draws w' = 0%nat /\ db_ops w' = 0%nat.
Proof.
  destruct (@process_validation_failure (Scenario.platform false)
              "uploads" "region/empty.geojson" Scenario.body_empty Scenario.body_empty
              "No features in collection" Scenario.doc_empty Scenario.fresh
              eq_refl eq_refl eq_refl eq_refl)
    as (w' & Hrun & Hs & _ & Hu & _ & Hd & _).
  exists w'. auto.
Defined.

Lemma process_unreadable_source_witness :
  exists w',
    @process_geojson_file (Scenario.platform false) "uploads" "region/gone.geojson"
      Scenario.fresh =
      (inr (false,
            "Error processing file: An error occurred (NoSuchKey) when calling the GetObject operation"),
       w') /\
    s3_reads w' = 1%nat /\ tables w' = ∅.
Proof.
  destruct (@process_unreadable_source (Scenario.platform false)
              "uploads" "region/gone.geojson"
              (Exn OtherException
                 "An error occurred (NoSuchKey) when calling the GetObject operation")
              Scenario.fresh (or_introl eq_refl))
    as (w' & Hrun & Hs & _ & _ & _ & _ & Ht).
  exists w'. auto.
Defined.

Lemma get_db_connection_reuses_witness :
  let first := @get_db_connection (Scenario.platform false) Scenario.fresh in
  @get_db_connection (Scenario.platform false) (snd first) =
    (inr "postgresql://gis:pw@db.internal:5432/geo", snd first) /\
  secret_reads (snd first) = 1%nat.
Proof.
  intros first. split; [|reflexivity].
  apply (@get_db_connection_reuses (Scenario.platform false) Scenario.fresh).
  reflexivity.
Defined.

Lemma get_db_connection_caches_before_connecting_witness :
  exists engine w',
    @get_db_connection (Scenario.platform true) Scenario.fresh =
      (inl Scenario.connection_refused, w') /\
    db_engine w' = Some engine /\ postgis w' = false /\
    @get_db_connection (Scenario.platform true) w' = (inr engine, w').
Proof.
  destruct (@get_db_connection_caches_before_connecting (Scenario.platform true)
              Scenario.fresh Scenario.connection_refused eq_refl
              (scenario_credentials_resolve true) eq_refl)
    as (engine & w' & H1 & H2 & H3 & H4 & _).
  exists engine, w'. auto.
Defined.

Lemma get_db_connection_missing_field_witness :
  exists w',
    @get_db_connection (ScenarioSecrets.platform ScenarioSecrets.no_port_text)
      Scenario.fresh = (inl (Exn KeyError "'port'"), w') /\
    db_engine w' = None /\ db_ops w' = 0%nat.
Proof.
  destruct (@get_db_connection_missing_field
              (ScenarioSecrets.platform ScenarioSecrets.no_port_text)
              Scenario.fresh ScenarioSecrets.no_port_text "port"
              ScenarioSecrets.no_port_doc eq_refl eq_refl eq_refl eq_refl)
    as (w' & H1 & H2 & H3 & _).
  exists w'. auto.
Defined.

Lemma process_malformed_secret_witness :
  exists w',
    @process_geojson_file (ScenarioSecrets.platform ScenarioSecrets.url_text)
      "uploads" "region/a.geojson" Scenario.fresh =
      (inr (false, "Invalid JSON format: Expecting value: line 1 column 1 (char 0)"), w') /\
    tables w' = ∅.
Proof.
  assert (Hreach : @reaches_load (ScenarioSecrets.platform ScenarioSecrets.url_text)
                     "uploads" "region/a.geojson" Scenario.fresh
                     [Scenario.gdf_row 1 2 "x"]).
  { exists Scenario.body_one, Scenario.body_one, Scenario.doc_one, Scenario.body_one.
    repeat split; reflexivity. }
  destruct (@process_malformed_secret (ScenarioSecrets.platform ScenarioSecrets.url_text)
              "uploads" "region/a.geojson" ScenarioSecrets.url_text
              "Expecting value: line 1 column 1 (char 0)"
              [Scenario.gdf_row 1 2 "x"] Scenario.fresh Hreach eq_refl eq_refl eq_refl)
    as (w' & H1 & H2 & _).
  exists w'. auto.
Defined.

Lemma process_writes_rows_read_witness :
  let w' := snd (@process_geojson_file (Scenario.platform false)
                   "uploads" "region/a.geojson" Scenario.fresh) in
  exists written r',
    tables w' !! "geojson_region_a_geojson" = Some written /\
    List.length written = 1%nat /\
    written !! 0%nat = Some r' /\
    r' !! "name" = Some (CJson (JStr "x")) /\
    r' !! "file_source" = Some (CText "region/a.geojson").
Proof.
  intros w'.
  destruct (@process_writes_rows_read (Scenario.platform false)
              "uploads" "region/a.geojson" "Processed 1 features" Scenario.fresh w'
              ltac:(vm_compute; reflexivity))
    as (rows & written & Hread & Ht & Hlen & Hrows).
  injection Hread as <-.
  destruct (Hrows 0%nat (Scenario.gdf_row 1 2 "x") eq_refl)
    as (r' & Hi & Hsrc & _ & _ & Hkeep).
  exists written, r'. split; [exact Ht|]. split; [exact Hlen|].
  split; [exact Hi|]. split; [|exact Hsrc].
  rewrite (Hkeep "name") by discriminate. reflexivity.
Defined.

(** ** The extension filter *)

Lemma endswith_iff (s suffix : string) :
  PyStr.endswith s suffix = true <-> exists stem, s = stem ++ suffix.
Proof.
  induction s as [|c s IH]; cbn [PyStr.endswith].
  - rewrite orb_false_r, String.eqb_eq. split.
    + intros <-. now exists "".
    + intros (stem & H). destruct stem; [exact H | discriminate].
  - rewrite orb_true_iff, String.eqb_eq, IH. split.
    + intros [<-|(stem & ->)]; [now exists "" | now exists (String c stem)].
    + intros ([|c' stem] & H); [left; exact H|].
      right. exists stem. now injection H.
Qed.

Lemma map_eq_app_str (f : ascii -> ascii) (s p q : string) :
  PyStr.map f s = p ++ q ->
  exists s1 s2, s = s1 ++ s2 /\ PyStr.map f s1 = p /\ PyStr.map f s2 = q.
Proof.
  revert s. induction p as [|c p IH]; intros s H.
  - exists "", s. auto.
  - destruct s as [|x s]; [discriminate|]. simpl in H. injection H as Hc Hrest.
    destruct (IH s Hrest) as (s1 & s2 & -> & H1 & H2).
    exists (String x s1), s2. simpl. rewrite Hc, H1. auto.
Qed.

(** X19: the handler's extension filter looks at the end of the key only
    and ignores letter case: a key passes exactly when it ends with some
    spelling of ".geojson" in upper or lower case, so it has at least 8
    characters; lower-casing the key does not change the verdict. *)
Theorem is_geojson_key_spec (key : string) :
  (is_geojson_key key = true <->
   exists stem extension,
     key = stem ++ extension /\ PyStr.lower extension = ".geojson") /\
  (is_geojson_key key = true -> (8 <= String.length key)%nat) /\
  is_geojson_key (PyStr.lower key) = is_geojson_key key.
Proof.
  assert (Hiff : is_geojson_key key = true <->
                 exists stem extension,
                   key = stem ++ extension /\ PyStr.lower extension = ".geojson").
  { unfold is_geojson_key. rewrite endswith_iff. split.
    - intros (p & Hp). apply map_eq_app_str in Hp.
      destruct Hp as (s1 & s2 & -> & _ & H2). now exists s1, s2.
    - intros (stem & extension & -> & Hext).
      exists (PyStr.lower stem). now rewrite lower_app, Hext. }
  split; [exact Hiff | split].
  - intros H. apply Hiff in H as (stem & extension & -> & Hext).
    rewrite append_length_str.
    assert (String.length extension = 8%nat).
    { unfold PyStr.lower in Hext. rewrite <- (map_length_str PyStr.lower_char), Hext.
      reflexivity. }
    lia.
  - unfold is_geojson_key. now rewrite lower_idempotent.
Qed.

Lemma is_geojson_key_spec_witness :
  is_geojson_key "Survey/Parcels.GeoJSON" = true /\
  (8 <= String.length "x.geojson")%nat.
Proof.
  split.
  - apply (proj1 (is_geojson_key_spec "Survey/Parcels.GeoJSON")).
    exists "Survey/Parcels", ".GeoJSON". split; reflexivity.
  - apply (proj1 (proj2 (is_geojson_key_spec "x.geojson"))). reflexivity.
Defined.

(** *** The dispatcher on the scenarios, continued *)

Lemma handler_launches_in_order_witness :
  let records := [Scenario.upload "a.geojson"; Scenario.upload "notes.txt";
                  Scenario.upload "full/b.geojson"; Scenario.upload "c.geojson"] in
  let outcome := @handler (Scenario.runtime true) records "req-1" Scenario.idle in
  statusCode (fst outcome) = 500%nat /\
  @qualifying_targets (Scenario.runtime true) records =
    [("uploads", "a.geojson"); ("uploads", "full/b.geojson"); ("uploads", "c.geojson")] /\
  exists launched,
    ecs_calls (snd outcome) = launched /\
    (launch_target <$> launched) `prefix_of`
      [("uploads", "a.geojson"); ("uploads", "full/b.geojson"); ("uploads", "c.geojson")].
Proof.
  cbv zeta. split; [reflexivity | split; [reflexivity|]].
  destruct (@handler_launches_in_order (Scenario.runtime true)
              [Scenario.upload "a.geojson"; Scenario.upload "notes.txt";
               Scenario.upload "full/b.geojson"; Scenario.upload "c.geojson"]
              "req-1" Scenario.idle)
    as (launched & Hcalls & Hpre & _).
  exists launched. split; [exact Hcalls | exact Hpre].
Defined.

Lemma handler_nothing_to_launch_witness :
  let outcome := @handler (Scenario.runtime true)
                   [Scenario.upload "notes.txt"; Scenario.upload "full/readme.md"]
                   "req-1" Scenario.idle in
  fst outcome =
    {| statusCode := 200;
       body := [("message", "Successfully processed 2 files");
                ("timestamp", "req-1")] |} /\
  ecs_calls (snd outcome) = [].
Proof.
  cbv zeta.
  apply (@handler_nothing_to_launch (Scenario.runtime true)
           [Scenario.upload "notes.txt"; Scenario.upload "full/readme.md"]
           "req-1" Scenario.idle).
  repeat constructor.
Defined.

(** ** The routes *)

Section RouteFacts.
Context `{P : Platform} `{W : WebRuntime}.

(** With values that are not two strings, the worker fails without using a
    service. *)
Lemma process_geojson_file_values_returns (bucket key : json) (w : World) :
  exists ok msg w',
    process_geojson_file_values bucket key w = (inr (ok, msg), w').
Proof.
  unfold process_geojson_file_values.
  destruct bucket, key;
    try (eexists _, _, _; unfold bind, logger, modify, ret; reflexivity).
  apply process_geojson_file_returns.
Qed.

(** X20: a request without a usable key is refused before anything is
    done.  When the body is a JSON object whose "key" is absent, null, an
    empty string, zero, false or an empty list or object, the route answers
    400 with the error "Missing key parameter" and the world is exactly as
    before: nothing is read, written or logged. *)
Theorem process_file_missing_key (entries : list (string * json)) (w : World) :
  truthy (match dict_get "key" entries with Some v => v | None => JNull end) = false ->
  process_file (inr (JDict entries)) w =
    (inr {| reply_status := 400;
            reply_json := [("error", JStr "Missing key parameter")] |}, w).
Proof.
  intros Hkey. unfold process_file, try_except.
  unfold bind at 1. cbn [lift]. unfold ret at 1.
  unfold bind at 1. cbn [get_attr_get lift]. unfold ret at 1.
  unfold bind at 1. cbn [get_attr_get lift]. unfold ret at 1.
  rewrite Hkey. reflexivity.
Qed.

(** X21: for a request that names a non-empty string key, and a string
    bucket or none (the worker's configured bucket then stands in), the
    route runs the worker once and adds nothing to its effects.  It answers
    200 with status "success" when the worker succeeded and 400 with status
    "error" when it failed, in both cases with the worker's message and the
    file as "s3://bucket/key". *)
Theorem process_file_runs_worker (entries : list (string * json))
    (bucket key : string) (w : World) :
  dict_get "key" entries = Some (JStr key) -> key <> "" ->
  dict_get "bucket" entries = Some (JStr bucket) \/
  (dict_get "bucket" entries = None /\ s3_bucket = Some bucket) ->
  exists ok msg w',
    process_geojson_file bucket key w = (inr (ok, msg), w') /\
    process_file (inr (JDict entries)) w =
      (inr {| reply_status := if ok then 200 else 400;
              reply_json :=
                [("status", JStr (if ok then "success" else "error"));
                 ("message", JStr msg);
                 ("file", JStr ("s3://" ++ bucket ++ "/" ++ key))] |}, w').
Proof.
  intros Hkey Hne Hbucket.
  destruct (process_geojson_file_returns bucket key w) as (ok & msg & w' & Hrun).
  exists ok, msg, w'. split; [exact Hrun|].
  assert (Hb : match dict_get "bucket" entries with
               | Some v => v
               | None => match s3_bucket with Some b => JStr b | None => JNull end
               end = JStr bucket).
  { destruct Hbucket as [-> | [-> ->]]; reflexivity. }
  unfold process_file, try_except.
  unfold bind at 1. cbn [lift]. unfold ret at 1.
  unfold bind at 1. cbn [get_attr_get lift]. unfold ret at 1. rewrite Hb.
  unfold bind at 1. cbn [get_attr_get lift]. unfold ret at 1. rewrite Hkey.
  cbn [truthy]. apply String.eqb_neq in Hne. rewrite Hne. cbn [negb].
  unfold bind at 1. cbn [process_geojson_file_values]. rewrite Hrun.
  cbn [format_value]. destruct ok; reflexivity.
Qed.

(** X22: the route never raises, and it answers 500 exactly when the
    request has no JSON object as body: when reading the body raised, or
    when the body is JSON of another type (null, a list, a string, ...).
    Every request with an object as body is answered 200 or 400. *)
Theorem process_file_status (request_json : exn + json) (w : World) :
  exists reply w',
    process_file request_json w = (inr reply, w') /\
    (reply_status reply = 200%nat \/ reply_status reply = 400%nat \/
     reply_status reply = 500%nat) /\
    (reply_status reply = 500%nat <->
     ~ exists entries, request_json = inr (JDict entries)) /\
    (reply_status reply = 500%nat -> tables w' = tables w /\ s3_reads w' = s3_reads w).
Proof.
  assert (Hraise : forall e : exn,
    exists reply w',
      (@inr exn http_reply
         {| reply_status := 500; reply_json := [("error", JStr (exn_text e))] |},
       with_log (log w ++ [(ERROR, ("Error in process endpoint: " ++ exn_text e)%string)])%list w)
      = (inr reply, w') /\
      (reply_status reply = 200%nat \/ reply_status reply = 400%nat \/
       reply_status reply = 500%nat) /\
      (reply_status reply = 500%nat -> tables w' = tables w /\ s3_reads w' = s3_reads w) /\
      reply_status reply = 500%nat).
  { intros e. eexists _, _. split; [reflexivity|]. simpl. auto. }
  destruct request_json as [e|data].
  - destruct (Hraise e) as (reply & w' & Heq & Hst & Hframe & H500).
    exists reply, w'. split; [exact Heq|]. split; [exact Hst|].
    split; [|exact Hframe].
    split; [intros _ (entries & [=]) | intros _; exact H500].
  - destruct data as [| | | | | |entries];
      try (match goal with |- context [process_file (inr ?d)] =>
             destruct (Hraise (Exn OtherException
                                 ("'" ++ py_type_name d ++ "' object has no attribute 'get'")))
               as (reply & w' & Heq & Hst & Hframe & H500)
           end;
           exists reply, w'; split; [exact Heq|]; split; [exact Hst|];
           split; [|exact Hframe];
           split; [intros _ (entries & [=]) | intros _; exact H500]).
    unfold process_file, try_except.
    unfold bind at 1. cbn [lift]. unfold ret at 1.
    unfold bind at 1. cbn [get_attr_get lift]. unfold ret at 1.
    unfold bind at 1. cbn [get_attr_get lift]. unfold ret at 1.
    destruct (truthy _); cbn [negb].
    + unfold bind at 1.
      match goal with |- context [process_geojson_file_values ?b ?k w] =>
        destruct (process_geojson_file_values_returns b k w) as (ok & msg & w' & ->) end.
      destruct ok; eexists _, _; (split; [reflexivity|]); simpl;
        (split; [auto|]); (split; [|discriminate]);
        (split; [discriminate | intros H; exfalso; apply H; eauto]).
    + eexists _, _. split; [reflexivity|]. simpl.
      split; [auto|]. split; [|discriminate].
      split; [discriminate | intros H; exfalso; apply H; eauto].
Qed.

(** X23: the status route never raises and never changes a table.  It
    answers 200 exactly when a connection is obtained and the version query
    that follows meets no fault, and 503 otherwise; either way the clock is
    read once.  After a 200 the engine is cached. *)
Theorem status_reply (w : World) :
  exists reply w',
    status w = (inr reply, w') /\
    tables w' = tables w /\ clock_reads w' = S (clock_reads w) /\
    (reply_status reply = 200%nat \/ reply_status reply = 503%nat) /\
    (reply_status reply = 200%nat <->
     exists engine w1,
       get_db_connection w = (inr engine, w1) /\
       db_connect_fault_at (db_ops w1) = None) /\
    (reply_status reply = 200%nat -> db_engine w' <> None).
Proof.
  unfold status, try_except. unfold bind at 1.
  destruct (get_db_connection w) as [[e|engine] w1] eqn:Hconn;
    destruct (get_db_connection_frame _ _ _ Hconn) as (Ht & _ & Hc & _ & Heng).
  - unfold bind, utcnow, ret. eexists _, _. split; [reflexivity|]. simpl.
    rewrite Ht, Hc. repeat split; auto; try discriminate.
    intros (? & ? & [=] & _).
  - specialize (Heng engine eq_refl).
    unfold bind at 1. unfold select_version.
    destruct (db_connect_fault_at (db_ops w1)) as [e|] eqn:Hfault.
    + unfold bind, utcnow, ret. eexists _, _. split; [reflexivity|]. simpl.
      rewrite Ht, Hc. repeat split; auto; try discriminate.
      intros (? & ? & [= <- <-] & Hno). congruence.
    + unfold bind, utcnow, ret. eexists _, _. split; [reflexivity|]. simpl.
      rewrite Ht, Hc. repeat split; auto; try congruence.
      intros _. eauto.
Qed.

End RouteFacts.

(** *** The dispatcher and the routes on the scenarios *)

Lemma handler_missing_setting_witness :
  let outcome := @handler ScenarioUnset.runtime
                   [Scenario.upload "notes.txt"; Scenario.upload "a.geojson"]
                   "req-1" Scenario.idle in
  fst outcome =
    {| statusCode := 500;
       body := [("error", "'ECS_SUBNETS'"); ("timestamp", "req-1")] |} /\
  ecs_calls (snd outcome) = [].
Proof.
  cbv zeta.
  apply (@handler_missing_setting ScenarioUnset.runtime
           [Scenario.upload "notes.txt"; Scenario.upload "a.geojson"]
           "req-1" "ECS_SUBNETS" Scenario.idle eq_refl).
  apply Exists_cons_tl, Exists_cons_hd. reflexivity.
Defined.

Lemma run_ecs_task_outcome_witness :
  let outcome := @run_ecs_task (Scenario.runtime true) "uploads" "full/a.geojson"
                   Scenario.idle in
  fst outcome =
    inl (Exn OtherException
           "ECS task failed to start: [{'arn': 'arn:aws:ecs:cluster/geo', 'reason': 'RESOURCE:MEMORY'}]") /\
  subnets <$> ecs_calls (snd outcome) = [["subnet-1"; "subnet-2"]].
Proof.
  cbv zeta.
  destruct (@run_ecs_task_outcome (Scenario.runtime true) "uploads" "full/a.geojson"
              "geo" "geojson-processor:1" "subnet-1,subnet-2" "sg-1" Scenario.idle
              eq_refl eq_refl eq_refl eq_refl) as (Hcalls & Hout).
  split; [exact Hout|]. rewrite Hcalls. reflexivity.
Defined.

Lemma process_file_missing_key_witness :
  @process_file (Scenario.platform false) ScenarioWeb.web
    (inr (JDict [("bucket", JStr "uploads"); ("key", JStr "")])) Scenario.fresh =
  (inr {| reply_status := 400;
          reply_json := [("error", JStr "Missing key parameter")] |}, Scenario.fresh).
Proof.
  apply (@process_file_missing_key (Scenario.platform false) ScenarioWeb.web
           [("bucket", JStr "uploads"); ("key", JStr "")] Scenario.fresh).
  reflexivity.
Defined.

Lemma process_file_runs_worker_witness :
  exists w',
    @process_file (Scenario.platform false) ScenarioWeb.web
      (ScenarioWeb.request "region/a.geojson") Scenario.fresh =
    (inr {| reply_status := 200;
            reply_json :=
              [("status", JStr "success"); ("message", JStr "Processed 1 features");
               ("file", JStr "s3://uploads/region/a.geojson")] |}, w').
Proof.
  destruct (@process_file_runs_worker (Scenario.platform false) ScenarioWeb.web
              [("key", JStr "region/a.geojson")] "uploads" "region/a.geojson"
              Scenario.fresh eq_refl ltac:(discriminate)
              (or_intror (conj eq_refl eq_refl)))
    as (ok & msg & w' & Hrun & Hreply).
  assert (Hfirst : fst (@process_geojson_file (Scenario.platform false)
                          "uploads" "region/a.geojson" Scenario.fresh) =
                   inr (true, "Processed 1 features"))
    by (vm_compute; reflexivity).
  rewrite Hrun in Hfirst. cbn [fst] in Hfirst.
  injection Hfirst as -> ->. exists w'. exact Hreply.
Defined.

Lemma process_file_status_witness :
  exists reply w',
    @process_file (Scenario.platform false) ScenarioWeb.web
      (inr (JList [JStr "region/a.geojson"])) Scenario.fresh = (inr reply, w') /\
    reply_status reply = 500%nat /\ tables w' = ∅.
Proof.
  destruct (@process_file_status (Scenario.platform false) ScenarioWeb.web
              (inr (JList [JStr "region/a.geojson"])) Scenario.fresh)
    as (reply & w' & Hrun & _ & H500 & Hframe).
  assert (Hst : reply_status reply = 500%nat).
  { apply H500. intros (entries & [=]). }
  exists reply, w'. split; [exact Hrun|]. split; [exact Hst|].
  exact (proj1 (Hframe Hst)).
Defined.

Lemma status_reply_witness :
  (exists reply w',
     @status (Scenario.platform false) ScenarioWeb.web Scenario.fresh = (inr reply, w') /\
     reply_status reply = 200%nat /\ db_engine w' <> None) /\
  (exists reply w',
     @status (Scenario.platform true) ScenarioWeb.web Scenario.fresh = (inr reply, w') /\
     reply_status reply = 503%nat).
Proof.
  split.
  - destruct (@status_reply (Scenario.platform false) ScenarioWeb.web Scenario.fresh)
      as (reply & w' & Hrun & _ & _ & _ & H200 & Hcached).
    assert (Hst : reply_status reply = 200%nat).
    { apply H200. eexists _, _. split; vm_compute; reflexivity. }
    exists reply, w'. auto.
  - destruct (@status_reply (Scenario.platform true) ScenarioWeb.web Scenario.fresh)
      as (reply & w' & Hrun & _ & _ & [H|H] & H200 & _).
    + exfalso. apply H200 in H as (engine & w1 & Hconn & _).
      vm_compute in Hconn. discriminate Hconn.
    + exists reply, w'. auto.
Defined.

